(** * go-billwerk: request builder and client executor

    A shallow embedding of [pkg/request/builder.go] and [optimize/billwerk.go]
    (with [optimize/error.go] and [optimize/query.go]), together with the
    fragments of the Go standard library whose behaviour the code relies on:
    [encoding/base64], [net/textproto], [net/url] and [net/http].

    Go strings are byte sequences; they are modelled by [string], whose
    characters are the 256 values of [ascii].  Go maps are modelled by
    [gmap]; Go [int] values by [Z]. *)

From Stdlib Require Import ZArith NArith String Ascii List DecimalString Lia.
From stdpp Require Import gmap strings list sorting.

(** ** Byte and string helpers *)

Definition byte_in (lo hi c : ascii) : bool :=
  (N_of_ascii lo <=? N_of_ascii c)%N && (N_of_ascii c <=? N_of_ascii hi)%N.

Definition is_lower (c : ascii) : bool := byte_in "a" "z" c.
Definition is_upper (c : ascii) : bool := byte_in "A" "Z" c.
Definition is_digit (c : ascii) : bool := byte_in "0" "9" c.

Definition mem_byte (c : ascii) (s : string) : bool :=
  existsb (Ascii.eqb c) (list_ascii_of_string s).

Fixpoint string_forallb (p : ascii → bool) (s : string) : bool :=
  match s with
  | EmptyString => true
  | String c s' => p c && string_forallb p s'
  end.

(** [strings.Join] *)
Fixpoint join (sep : string) (l : list string) : string :=
  match l with
  | [] => ""
  | [s] => s
  | s :: l' => s +:+ sep +:+ join sep l'
  end.

(** The [%d] verb of [fmt] on an [int]. *)
Definition format_d (n : Z) : string := NilZero.string_of_int (Z.to_int n).

(** ** encoding/base64: [StdEncoding.EncodeToString] *)

Module base64.

Definition encodeStd : string :=
  "ABCDEFGHIJKLMNOPQRSTUVWXYZabcdefghijklmnopqrstuvwxyz0123456789+/".

Definition StdPadding : ascii := "=".

(** [enc.encode[i & 0x3F]] *)
Definition enc (val : N) (shift : N) : ascii :=
  match String.get (N.to_nat (N.land (N.shiftr val shift) 63)) encodeStd with
  | Some c => c
  | None => StdPadding
  end.

(** The encoder consumes three source bytes per quantum of four output
    characters; a remainder of one or two bytes is padded. *)
Fixpoint EncodeToString (src : string) : string :=
  match src with
  | EmptyString => EmptyString
  | String a EmptyString =>
      let val := N.shiftl (N_of_ascii a) 16 in
      String (enc val 18) (String (enc val 12)
        (String StdPadding (String StdPadding EmptyString)))
  | String a (String b EmptyString) =>
      let val := N.lor (N.shiftl (N_of_ascii a) 16) (N.shiftl (N_of_ascii b) 8) in
      String (enc val 18) (String (enc val 12) (String (enc val 6)
        (String StdPadding EmptyString)))
  | String a (String b (String c rest)) =>
      let val := N.lor (N.lor (N.shiftl (N_of_ascii a) 16)
                              (N.shiftl (N_of_ascii b) 8)) (N_of_ascii c) in
      String (enc val 18) (String (enc val 12) (String (enc val 6)
        (String (enc val 0) (EncodeToString rest))))
  end.

(** A character of the encoding alphabet, or the padding. *)
Definition in_alphabet (c : ascii) : bool :=
  mem_byte c encodeStd || Ascii.eqb c StdPadding.

End base64.

(** ** net/textproto: [CanonicalMIMEHeaderKey] *)

Module textproto.

(** Token characters of RFC 7230. *)
Definition validHeaderFieldByte (c : ascii) : bool :=
  is_lower c || is_upper c || is_digit c || mem_byte c "!#$%&'*+-.^_`|~".

Definition toUpper (c : ascii) : ascii :=
  if is_lower c then ascii_of_N (N_of_ascii c - 32) else c.

Definition toLower (c : ascii) : ascii :=
  if is_upper c then ascii_of_N (N_of_ascii c + 32) else c.

(** First letter upper case and upper case after each dash. *)
Fixpoint canonicalize (upper : bool) (s : string) : string :=
  match s with
  | EmptyString => EmptyString
  | String c s' =>
      let c' := if upper then toUpper c else toLower c in
      String c' (canonicalize (Ascii.eqb c' "-") s')
  end.

(** The string in ASCII lower case: header names are compared without
    regard to case. *)
Fixpoint lower (s : string) : string :=
  match s with
  | EmptyString => EmptyString
  | String c s' => String (toLower c) (lower s')
  end.

(** A key holding a byte that is no token character is returned unchanged. *)
Definition CanonicalMIMEHeaderKey (s : string) : string :=
  if string_forallb validHeaderFieldByte s then canonicalize true s else s.

End textproto.

(** ** net/url: query escaping and [url.Values] *)

Module url.

Definition upperhex : string := "0123456789ABCDEF".

Definition hexdigit (n : N) : ascii :=
  match String.get (N.to_nat n) upperhex with
  | Some c => c
  | None => "0"%char
  end.

(** [shouldEscape(c, encodeQueryComponent)] *)
Definition shouldEscape (c : ascii) : bool :=
  if is_lower c || is_upper c || is_digit c then false
  else if mem_byte c "-_.~" then false
  else true.

Definition escape_byte (c : ascii) : string :=
  if Ascii.eqb c " " then "+"
  else if shouldEscape c then
    String "%" (String (hexdigit (N.shiftr (N_of_ascii c) 4))
      (String (hexdigit (N.land (N_of_ascii c) 15)) EmptyString))
  else String c EmptyString.

(** [url.QueryEscape] *)
Fixpoint QueryEscape (s : string) : string :=
  match s with
  | EmptyString => EmptyString
  | String c s' => escape_byte c +:+ QueryEscape s'
  end.

(** [type Values map[string][]string] *)
Abbreviation Values := (gmap string (list string)).

(** [v[key]]: a missing key reads as the nil slice. *)
Definition values_of (v : Values) (key : string) : list string :=
  default [] (v !! key).

(** [Values.Set]: [v[key] = []string{value}] *)
Definition Set_ (v : Values) (key value : string) : Values :=
  <[key := [value]]> v.

(** [Values.Add]: [v[key] = append(v[key], value)] *)
Definition Add (v : Values) (key value : string) : Values :=
  <[key := values_of v key ++ [value]]> v.

(** The keys of the map after [slices.Sort].  Go compares strings byte by
    byte, which is the order [String.le]; the keys of a map are distinct,
    so the order in which the map is ranged over does not show. *)
Definition sorted_keys (v : Values) : list string :=
  merge_sort String.le (elements (dom v)).

(** One step of the inner loop of [Values.Encode]: a separator unless the
    buffer is still empty, then [key=value] with both sides escaped. *)
Definition write_pair (keyEscaped : string) (buf : string) (value : string) : string :=
  (if Nat.ltb 0 (String.length buf) then buf +:+ "&" else buf)
    +:+ keyEscaped +:+ "=" +:+ QueryEscape value.

Definition write_key (v : Values) (buf : string) (k : string) : string :=
  fold_left (write_pair (QueryEscape k)) (values_of v k) buf.

(** [Values.Encode] *)
Definition Encode (v : Values) : string :=
  fold_left (write_key v) (sorted_keys v) "".

(** The key/value pairs in the order [Encode] writes them. *)
Definition encode_pairs (v : Values) : list (string * string) :=
  k ← sorted_keys v; (λ value, (k, value)) <$> values_of v k.

Definition render_pair (p : string * string) : string :=
  QueryEscape p.1 +:+ "=" +:+ QueryEscape p.2.

(** The buffer of [Encode] after further segments have been written. *)
Definition extend (buf : string) (segs : list string) : string :=
  match segs with
  | [] => buf
  | _ => if bool_decide (buf ≠ "") then buf +:+ "&" +:+ join "&" segs else join "&" segs
  end.

(** *** Reading a query string back

    The functions below are the readers of [net/url]; they serve to state
    what an encoded query string contains. *)

Definition ishex (c : ascii) : bool :=
  is_digit c || byte_in "a" "f" c || byte_in "A" "F" c.

Definition unhex (c : ascii) : N :=
  if is_digit c then N_of_ascii c - N_of_ascii "0"
  else if byte_in "a" "f" c then N_of_ascii c - N_of_ascii "a" + 10
  else if byte_in "A" "F" c then N_of_ascii c - N_of_ascii "A" + 10
  else 0.

(** [url.QueryUnescape]; [None] is the [EscapeError]. *)
Fixpoint QueryUnescape (s : string) : option string :=
  match s with
  | EmptyString => Some EmptyString
  | String c rest =>
      if Ascii.eqb c "%" then
        match rest with
        | String h (String l rest') =>
            if ishex h && ishex l
            then String (ascii_of_N (N.lor (N.shiftl (unhex h) 4) (unhex l)))
                   <$> QueryUnescape rest'
            else None
        | _ => None
        end
      else if Ascii.eqb c "+" then String " " <$> QueryUnescape rest
      else String c <$> QueryUnescape rest
  end.

(** The string holds no byte [sep]. *)
Definition no_byte (sep : ascii) (s : string) : bool :=
  string_forallb (λ c, negb (Ascii.eqb c sep)) s.

(** None of the separators of a query string. *)
Definition plain (c : ascii) : bool :=
  negb (Ascii.eqb c "&") && negb (Ascii.eqb c "=") && negb (Ascii.eqb c ";").

(** [strings.Split] with a separator of one byte. *)
Fixpoint split_on (sep : ascii) (s : string) : list string :=
  match s with
  | EmptyString => [EmptyString]
  | String c s' =>
      if Ascii.eqb c sep then EmptyString :: split_on sep s'
      else match split_on sep s' with
           | seg :: segs => String c seg :: segs
           | [] => [String c EmptyString]
           end
  end.

(** [strings.Cut] with a separator of one byte: the text before the first
    occurrence and the text after it. *)
Fixpoint cut (sep : ascii) (s : string) : string * string :=
  match s with
  | EmptyString => (EmptyString, EmptyString)
  | String c s' =>
      if Ascii.eqb c sep then (EmptyString, s')
      else let '(before, after) := cut sep s' in (String c before, after)
  end.

(** The [key=value] settings of a query string, in order, as
    [url.ParseQuery] reads them; [None] where it reports an error. *)
Definition query_pairs (query : string) : option (list (string * string)) :=
  mapM (λ seg, if no_byte ";" seg then
                 let '(key, value) := cut "=" seg in
                 key ← QueryUnescape key;
                 value ← QueryUnescape value;
                 Some (key, value)
               else None)
       (filter (λ seg, seg ≠ "") (split_on "&" query)).

(** A byte an encoded query string is made of: an unreserved character, or
    one of [%], [+], [=] and [&]. *)
Definition query_byte (c : ascii) : bool :=
  negb (shouldEscape c) || mem_byte c "%+=&".

(** No key is bound to the empty slice, as in a map written by [Set] and
    [Add] only. *)
Definition no_empty (v : Values) : Prop := ∀ k, v !! k ≠ Some [].

(** [type URL struct] *)
Record URL := mkURL {
  Scheme : string;
  Opaque : string;
  User : option (string * option string);
  Host : string;
  Path : string;
  RawPath : string;
  OmitHost : bool;
  ForceQuery : bool;
  RawQuery : string;
  Fragment : string;
  RawFragment : string
}.

Definition set_RawQuery (u : URL) (q : string) : URL :=
  mkURL (Scheme u) (Opaque u) (User u) (Host u) (Path u) (RawPath u)
        (OmitHost u) (ForceQuery u) q (Fragment u) (RawFragment u).

End url.

(** ** Errors

    Go's [error] is an interface; the values this code produces or passes on
    are library errors, [fmt.Errorf] results and [ErrorResponse] values. *)

(** [type ErrorResponse struct] of package [optimize]. *)
Record ErrorResponse := mkErrorResponse {
  Code : Z;
  ErrorMessage : string;
  ErrorDescription : string;
  HTTPReason : string;
  HTTPStatus : Z;
  Path : string;
  Timestamp : string;
  RequestID : string;
  TransactionError : string
}.

Inductive error : Type :=
  | errorString (msg : string)               (* [errors.New], [fmt.Errorf] without [%w] *)
  | wrapError (msg : string) (err : error)   (* [fmt.Errorf] with one [%w] operand *)
  | apiError (e : ErrorResponse).            (* an [ErrorResponse] returned as [error] *)

Inductive result (A : Type) : Type :=
  | Ok (a : A)
  | Err (e : error).
Arguments Ok {A} a.
Arguments Err {A} e.

(** [func (e ErrorResponse) Error() string] *)
Definition ErrorResponse_Error (e : ErrorResponse) : string :=
  let message := ErrorMessage e in
  if bool_decide (ErrorDescription e ≠ "")
  then message +:+ ": " +:+ ErrorDescription e
  else message.

(** The [Error] method of the interface. *)
Definition Error (e : error) : string :=
  match e with
  | errorString msg => msg
  | wrapError msg _ => msg
  | apiError e => ErrorResponse_Error e
  end.

(** [errors.Unwrap] *)
Definition Unwrap (e : error) : option error :=
  match e with
  | wrapError _ err => Some err
  | _ => None
  end.

(** [fmt.Errorf(prefix + "%w", err)] *)
Definition Errorf_w (prefix : string) (err : error) : error :=
  wrapError (prefix +:+ Error err) err.

(** [fmt.Errorf(prefix + "%d", n)] *)
Definition Errorf_d (prefix : string) (n : Z) : error :=
  errorString (prefix +:+ format_d n).

(** ** context and net/http data *)

Module context.

(** Contexts are opaque to this code: it stores and hands on the one it is
    given.  A context is represented by an identifier; the nil interface
    value is [None] of [option Context]. *)
Record Context := mkContext { id : nat }.

End context.

Module http.

Definition MethodGet : string := "GET".
Definition MethodPost : string := "POST".
Definition MethodPut : string := "PUT".
Definition MethodDelete : string := "DELETE".

Definition StatusOK : Z := 200.
Definition StatusBadRequest : Z := 400.

(** [type Header map[string][]string] *)
Abbreviation Header := (gmap string (list string)).

(** [Header.Set] *)
Definition Header_Set (h : Header) (key value : string) : Header :=
  <[textproto.CanonicalMIMEHeaderKey key := [value]]> h.

(** Every key of the map is the canonical form of some key, as in a map
    written by [Set] only. *)
Definition canonical_keys (h : Header) : Prop :=
  ∀ key vs, h !! key = Some vs → ∃ k, key = textproto.CanonicalMIMEHeaderKey k.

(** [Header.Get]: the first value of the canonical key, or the empty string. *)
Definition Header_Get (h : Header) (key : string) : string :=
  match h !! textproto.CanonicalMIMEHeaderKey key with
  | Some (v :: _) => v
  | _ => ""
  end.

(** [type Request struct]; a body is the bytes its reader yields. *)
Record Request := mkRequest {
  Method : string;
  URL : url.URL;
  Header_ : Header;
  Body : option string;
  ContentLength : Z;
  Host : string;
  ctx : context.Context
}.

Definition with_Header (req : Request) (h : Header) : Request :=
  mkRequest (Method req) (URL req) h (Body req) (ContentLength req) (Host req) (ctx req).

Definition with_RawQuery (req : Request) (q : string) : Request :=
  mkRequest (Method req) (url.set_RawQuery (URL req) q) (Header_ req) (Body req)
            (ContentLength req) (Host req) (ctx req).

(** [type Response struct] *)
Record Response := mkResponse {
  Status : string;
  StatusCode : Z;
  RespHeader : Header;
  RespBody : string
}.

(** [type RoundTripper interface]: its one method [RoundTrip] takes a
    request and returns a response or an error. *)
Definition RoundTripper : Type := Request → result Response.

(** [type Client struct]; [Timeout] is a [time.Duration] in nanoseconds. *)
Record Client := mkClient {
  Transport : option RoundTripper;
  Timeout : Z
}.

(** What happens to a response body during a call. *)
Inductive BodyOp := BodyRead | BodyClose.

End http.

Module time.
Definition Second : Z := 1000000000.
End time.

(** ** The environment of the two packages

    [Version] is the constant of the root package [billwerk]; the other
    fields are the entry points of [net/http] the code calls.  Their
    behaviour is not fixed here. *)
Class Environment := {
  Version : string;
  http_NewRequestWithContext :
    option context.Context → string → string → option string → result http.Request;
  http_Client_Do : http.Client → http.Request → result http.Response
}.

(** [encoding/json] works by reflection on the value it is given; a type
    that can be written has a [Marshaler], one that can be read a
    [Unmarshaler].  [json_Decode data v] is [json.NewDecoder(r).Decode(&v)]
    for a reader [r] yielding [data]: the value after the call and the
    error, if any. *)
Class Marshaler (V : Type) := { json_Marshal : V → result string }.
Class Unmarshaler (V : Type) := { json_Decode : string → V → V * option error }.

(** [json.NewEncoder(buf).Encode(v)]: the encoding followed by a newline is
    written to the buffer; on an error nothing is written. *)
Definition json_Encode {V} {M : Marshaler V} (buf : string) (v : V) : string * option error :=
  match json_Marshal v with
  | Ok b => (buf +:+ b +:+ String "010" EmptyString, None)
  | Err e => (buf, Some e)
  end.

(** ** Package [request]: the builder ([pkg/request/builder.go]) *)

Module request.

(** [type request struct].  The methods have a pointer receiver and return
    the receiver: each is a function from the state of the builder before
    the call to its state after it. *)
Record request := mkrequest {
  ctx : option context.Context;
  method : string;
  baseURL : string;
  endpoint : string;
  header : http.Header;
  params : url.Values;
  body : option string
}.

Definition set_method (r : request) (m : string) : request :=
  mkrequest (ctx r) m (baseURL r) (endpoint r) (header r) (params r) (body r).
Definition set_baseURL (r : request) (u : string) : request :=
  mkrequest (ctx r) (method r) u (endpoint r) (header r) (params r) (body r).
Definition set_endpoint (r : request) (e : string) : request :=
  mkrequest (ctx r) (method r) (baseURL r) e (header r) (params r) (body r).
Definition set_header (r : request) (h : http.Header) : request :=
  mkrequest (ctx r) (method r) (baseURL r) (endpoint r) h (params r) (body r).
Definition set_params (r : request) (p : url.Values) : request :=
  mkrequest (ctx r) (method r) (baseURL r) (endpoint r) (header r) p (body r).
Definition set_body (r : request) (b : option string) : request :=
  mkrequest (ctx r) (method r) (baseURL r) (endpoint r) (header r) (params r) b.

Definition New (ctx : option context.Context) : request :=
  {| ctx := ctx; method := http.MethodGet; baseURL := ""; endpoint := "";
     header := ∅; params := ∅; body := None |}.

Definition WithBaseURL (baseURL : string) (r : request) : request :=
  set_baseURL r baseURL.

Definition WithEndpoint (endpoint : string) (r : request) : request :=
  set_endpoint r endpoint.

Definition WithParam (key value : string) (r : request) : request :=
  set_params r (url.Set_ (params r) key value).

Definition AddParam (key value : string) (r : request) : request :=
  set_params r (url.Add (params r) key value).

Definition WithHeader (key value : string) (r : request) : request :=
  set_header r (http.Header_Set (header r) key value).

Definition WithBasicAuth (username password : string) (r : request) : request :=
  let rawCredentials := username +:+ ":" +:+ password in
  let credentials := base64.EncodeToString rawCredentials in
  let value := "Basic " +:+ credentials in
  WithHeader "Authorization" value r.

Definition WithContentTypeJSON (r : request) : request :=
  WithHeader "Content-Type" "application/json; charset=utf-8" r.

Definition WithBody (body : option string) (r : request) : request :=
  set_body r body.

(** The error of the encoder is assigned to the blank identifier. *)
Definition WithJSONBody {V} {M : Marshaler V} (v : V) (r : request) : request :=
  let r := WithContentTypeJSON r in
  let buf := "" in
  let '(buf, _) := json_Encode buf v in
  set_body r (Some buf).

(** A configuration call as a value, so that chains of calls can be
    quantified over. *)
Inductive Call :=
  | CallWithBaseURL (baseURL : string)
  | CallWithEndpoint (endpoint : string)
  | CallWithParam (key value : string)
  | CallAddParam (key value : string)
  | CallWithHeader (key value : string)
  | CallWithBasicAuth (username password : string)
  | CallWithContentTypeJSON
  | CallWithBody (body : option string)
  | CallWithJSONBody {V : Type} {M : Marshaler V} (v : V).

Definition call (c : Call) (r : request) : request :=
  match c with
  | CallWithBaseURL baseURL => WithBaseURL baseURL r
  | CallWithEndpoint endpoint => WithEndpoint endpoint r
  | CallWithParam key value => WithParam key value r
  | CallAddParam key value => AddParam key value r
  | CallWithHeader key value => WithHeader key value r
  | CallWithBasicAuth username password => WithBasicAuth username password r
  | CallWithContentTypeJSON => WithContentTypeJSON r
  | CallWithBody body => WithBody body r
  | CallWithJSONBody v => WithJSONBody v r
  end.

(** [r.c1(...).c2(...)...] *)
Definition chain (calls : list Call) (r : request) : request :=
  fold_left (λ r c, call c r) calls r.

(** The key of the header map a call writes, if it writes one. *)
Definition header_written (c : Call) : option string :=
  match c with
  | CallWithHeader key _ => Some (textproto.CanonicalMIMEHeaderKey key)
  | CallWithBasicAuth _ _ => Some "Authorization"
  | CallWithContentTypeJSON => Some "Content-Type"
  | CallWithJSONBody _ => Some "Content-Type"
  | _ => None
  end.

(** The local [fullURL] of [build]. *)
Definition fullURL (r : request) : string := baseURL r +:+ endpoint r.

Section terminal.
Context {env : Environment}.

Definition UserAgent : string := "go-billwerk/" +:+ Version.

(** [build] also writes the [User-Agent] into the header map of the builder,
    which the request then shares: the state of the builder after the call
    is returned with the result. *)
Definition build (r : request) : request * result http.Request :=
  let fullURL := fullURL r in
  match http_NewRequestWithContext (ctx r) (method r) fullURL (body r) with
  | Err err => (r, Err err)
  | Ok req =>
      let r := set_header r (http.Header_Set (header r) "User-Agent" UserAgent) in
      let req := http.with_Header req (header r) in
      let req := http.with_RawQuery req (url.Encode (params r)) in
      (r, Ok req)
  end.

Definition GET (r : request) : request * result http.Request :=
  build (set_method r http.MethodGet).

Definition POST (r : request) : request * result http.Request :=
  build (set_method r http.MethodPost).

Definition PUT (r : request) : request * result http.Request :=
  build (set_method r http.MethodPut).

Definition DELETE (r : request) : request * result http.Request :=
  build (set_method r http.MethodDelete).

End terminal.

End request.

(** ** Package [optimize]: the client ([optimize/billwerk.go]) *)

Module optimize.

(** The package-level variables. *)
Record Vars := mkVars { BaseURL : string }.

(** [var BaseURL = "https://api.reepay.com/v1"] *)
Definition init : Vars := {| BaseURL := "https://api.reepay.com/v1" |}.

(** An assignment [optimize.BaseURL = s]; the variable is exported. *)
Definition assign_BaseURL (s : string) (g : Vars) : Vars := {| BaseURL := s |}.

(** [type Billwerk struct] *)
Record Billwerk := mkBillwerk {
  apiKey : string;
  apiKeyB64 : string;
  httpClient : http.Client
}.

(** [type Option func(billwerk *Billwerk)] *)
Definition Option : Type := Billwerk → Billwerk.

Definition WithHTTPClient (client : http.Client) : Option :=
  λ billwerk, mkBillwerk (apiKey billwerk) (apiKeyB64 billwerk) client.

Definition New (apiKey : string) (opts : list Option) : Billwerk :=
  let b := {| apiKey := apiKey; apiKeyB64 := "";
              httpClient := {| http.Transport := None;
                               http.Timeout := 10 * time.Second |} |} in
  fold_left (λ b opt, opt b) opts b.

(** [newBillwerkRequest] reads the package variable [BaseURL]. *)
Definition newBillwerkRequest (g : Vars) (b : Billwerk)
    (ctx : option context.Context) : request.request :=
  request.WithHeader "Accept" "application/json; charset=utf-8"
    (request.WithBasicAuth (apiKey b) ""
      (request.WithBaseURL (BaseURL g) (request.New ctx))).

(** The zero value of [ErrorResponse]: [var errRes ErrorResponse]. *)
Definition zero_ErrorResponse : ErrorResponse :=
  mkErrorResponse 0 "" "" "" 0 "" "" "" "".

(** What a call of [Do] leaves behind: the error it returns ([None] is
    [nil]), the destination after the call, and what was done to the body
    of the response, in order. *)
Record Outcome (V : Type) := mkOutcome {
  returned : option error;
  destination : option V;
  body_ops : list http.BodyOp
}.
Arguments mkOutcome {V} _ _ _.
Arguments returned {V} _.
Arguments destination {V} _.
Arguments body_ops {V} _.

Section executor.
Context {env : Environment} {UE : Unmarshaler ErrorResponse}.

(** [Do]; the destination [v] is [None] for the nil interface value.  The
    deferred [Close] runs on every path once a response has arrived. *)
Definition Do {V} {U : Unmarshaler V} (b : Billwerk) (req : http.Request) (v : option V)
    : Outcome V :=
  match http_Client_Do (httpClient b) req with
  | Err err => mkOutcome (Some err) v []
  | Ok res =>
      if (http.StatusCode res <? http.StatusOK)%Z
         || (http.StatusCode res >=? http.StatusBadRequest)%Z
      then
        match json_Decode (http.RespBody res) zero_ErrorResponse with
        | (errRes, None) =>
            mkOutcome (Some (apiError errRes)) v [http.BodyRead; http.BodyClose]
        | (_, Some _) =>
            mkOutcome (Some (Errorf_d "unknown error, status code: " (http.StatusCode res)))
                      v [http.BodyRead; http.BodyClose]
        end
      else
        match v with
        | Some d =>
            match json_Decode (http.RespBody res) d with
            | (d, Some err) =>
                mkOutcome (Some (Errorf_w "failed to decode response body: " err))
                          (Some d) [http.BodyRead; http.BodyClose]
            | (d, None) => mkOutcome None (Some d) [http.BodyRead; http.BodyClose]
            end
        | None => mkOutcome None None [http.BodyClose]
        end
  end.

End executor.

(** [optimize/query.go] *)

(** [fmt.Sprintf("%v", value)] on a value of the type. *)
Class Formatter (V : Type) := { format_v : V → string }.

(** [type QueryParamFunc func(requestBuilder request.Builder)] *)
Definition QueryParamFunc : Type := request.request → request.request.

Definition WithQueryParam {V} {F : Formatter V} (param : string) (value : V) : QueryParamFunc :=
  λ requestBuilder, request.WithParam param (format_v value) requestBuilder.

Definition WithQueryParams {V} {F : Formatter V} (param : string) (values : list V)
    : QueryParamFunc :=
  λ requestBuilder,
    fold_left (λ rb val, request.AddParam param (format_v val) rb) values requestBuilder.

(** [optimize/plan.go]

    The resource methods handle their payload and result types through
    [encoding/json] only, so the types are parameters here, each result
    type with its zero value ([var res Plan]).  A pointer argument
    ([plan *Plan]) may be nil and is an [option]; a result of type
    [[]*Plan] is a list of pointers.  A method returning a pointer and an
    error returns a pointer with a nil error or nil with an error: a
    [result]. *)
Class Zero (T : Type) := { zero : T }.

(** The destination of [Do(req, nil)] holds no value. *)
Definition nil_destination : Unmarshaler Empty_set :=
  {| json_Decode _ (v : Empty_set) := match v with end |}.

Section plan.
Context {env : Environment} {UE : Unmarshaler ErrorResponse}.
Context {Plan PlanSupersede ListOfPlansResponse PlanEntitlement : Type}.
Context {ZP : Zero Plan} {UP : Unmarshaler Plan}.
Context {ZL : Zero ListOfPlansResponse} {UL : Unmarshaler ListOfPlansResponse}.
Context {UPs : Unmarshaler (list (option Plan))}.
Context {UEs : Unmarshaler (list (option PlanEntitlement))}.
Context {MP : Marshaler (option Plan)} {MS : Marshaler (option PlanSupersede)}.

Definition GetListOfPlans (g : Vars) (b : Billwerk) (ctx : option context.Context)
    (params : list QueryParamFunc) : result ListOfPlansResponse :=
  let endpoint := "/list/plan" in
  let requestBuilder := request.WithEndpoint endpoint (newBillwerkRequest g b ctx) in
  let requestBuilder := fold_left (λ rb param, param rb) params requestBuilder in
  match request.GET requestBuilder with
  | (_, Err err) => Err err
  | (_, Ok req) =>
      let o := Do b req (Some zero) in
      match returned o with
      | Some err => Err err
      | None => Ok (default zero (destination o))
      end
  end.

(** [GetPlan] also writes a failure of [Do] to the standard output, with
    [fmt.Printf] and the verb [%+v] followed by a newline; the second
    component is the text written. *)
Definition GetPlan (g : Vars) (b : Billwerk) (ctx : option context.Context)
    (handle : string) (params : list QueryParamFunc) : result Plan * string :=
  let endpoint := "/plan/" +:+ handle +:+ "/current" in
  let requestBuilder := request.WithEndpoint endpoint (newBillwerkRequest g b ctx) in
  let requestBuilder := fold_left (λ rb param, param rb) params requestBuilder in
  match request.GET requestBuilder with
  | (_, Err err) => (Err err, "")
  | (_, Ok req) =>
      let o := Do b req (Some zero) in
      match returned o with
      | Some err => (Err err, Error err +:+ String "010" EmptyString)
      | None => (Ok (default zero (destination o)), "")
      end
  end.

Definition GetListOfPlanVersions (g : Vars) (b : Billwerk) (ctx : option context.Context)
    (handle : string) (params : list QueryParamFunc) : result (list (option Plan)) :=
  let endpoint := "/plan/" +:+ handle in
  let requestBuilder := request.WithEndpoint endpoint (newBillwerkRequest g b ctx) in
  let requestBuilder := fold_left (λ rb param, param rb) params requestBuilder in
  match request.GET requestBuilder with
  | (_, Err err) => Err err
  | (_, Ok req) =>
      let o := Do b req (Some []) in
      match returned o with
      | Some err => Err err
      | None => Ok (default [] (destination o))
      end
  end.

Definition CreatePlan (g : Vars) (b : Billwerk) (ctx : option context.Context)
    (plan : option Plan) : result Plan :=
  let endpoint := "/plan" in
  let requestBuilder :=
    request.WithJSONBody plan
      (request.WithEndpoint endpoint (newBillwerkRequest g b ctx)) in
  match request.POST requestBuilder with
  | (_, Err err) => Err err
  | (_, Ok req) =>
      let o := Do b req (Some zero) in
      match returned o with
      | Some err => Err err
      | None => Ok (default zero (destination o))
      end
  end.

Definition SupersedePlan (g : Vars) (b : Billwerk) (ctx : option context.Context)
    (handle : string) (plan : option PlanSupersede) : result Plan :=
  let endpoint := "/plan/" +:+ handle in
  let requestBuilder :=
    request.WithJSONBody plan
      (request.WithEndpoint endpoint (newBillwerkRequest g b ctx)) in
  match request.POST requestBuilder with
  | (_, Err err) => Err err
  | (_, Ok req) =>
      let o := Do b req (Some zero) in
      match returned o with
      | Some err => Err err
      | None => Ok (default zero (destination o))
      end
  end.

Definition UpdatePlan (g : Vars) (b : Billwerk) (ctx : option context.Context)
    (handle : string) (plan : option Plan) : result Plan :=
  let endpoint := "/plan/" +:+ handle in
  let requestBuilder :=
    request.WithJSONBody plan
      (request.WithEndpoint endpoint (newBillwerkRequest g b ctx)) in
  match request.PUT requestBuilder with
  | (_, Err err) => Err err
  | (_, Ok req) =>
      let o := Do b req (Some zero) in
      match returned o with
      | Some err => Err err
      | None => Ok (default zero (destination o))
      end
  end.

Definition DeletePlan (g : Vars) (b : Billwerk) (ctx : option context.Context)
    (handle : string) : result Plan :=
  let endpoint := "/plan/" +:+ handle in
  let requestBuilder := request.WithEndpoint endpoint (newBillwerkRequest g b ctx) in
  match request.DELETE requestBuilder with
  | (_, Err err) => Err err
  | (_, Ok req) =>
      let o := Do b req (Some zero) in
      match returned o with
      | Some err => Err err
      | None => Ok (default zero (destination o))
      end
  end.

Definition UndeletePlan (g : Vars) (b : Billwerk) (ctx : option context.Context)
    (handle : string) : result Plan :=
  let endpoint := "/plan/" +:+ handle +:+ "/undelete" in
  let requestBuilder := request.WithEndpoint endpoint (newBillwerkRequest g b ctx) in
  match request.POST requestBuilder with
  | (_, Err err) => Err err
  | (_, Ok req) =>
      let o := Do b req (Some zero) in
      match returned o with
      | Some err => Err err
      | None => Ok (default zero (destination o))
      end
  end.

(** [version] is an [int32], formatted with [%d]. *)
Definition GetPlanEntitlements (g : Vars) (b : Billwerk) (ctx : option context.Context)
    (handle : string) (version : Z) : result (list (option PlanEntitlement)) :=
  let endpoint := "/plan/" +:+ handle +:+ "/" +:+ format_d version +:+ "/entitlement" in
  let requestBuilder := request.WithEndpoint endpoint (newBillwerkRequest g b ctx) in
  match request.GET requestBuilder with
  | (_, Err err) => Err err
  | (_, Ok req) =>
      let o := Do b req (Some []) in
      match returned o with
      | Some err => Err err
      | None => Ok (default [] (destination o))
      end
  end.

(** [DeletePlanMetadata] returns the error alone and passes [nil] as the
    destination. *)
Definition DeletePlanMetadata (g : Vars) (b : Billwerk) (ctx : option context.Context)
    (handle : string) : option error :=
  let endpoint := "/plan/" +:+ handle +:+ "/metadata" in
  let requestBuilder := request.WithEndpoint endpoint (newBillwerkRequest g b ctx) in
  match request.DELETE requestBuilder with
  | (_, Err err) => Some err
  | (_, Ok req) =>
      match returned (Do (U := nil_destination) b req None) with
      | Some err => Some err
      | None => None
      end
  end.

End plan.

(** What a resource method makes of the outcome of [Do]: the error, or the
    destination. *)
Definition answer {T} (o : Outcome T) (z : T) : result T :=
  match returned o with
  | Some err => Err err
  | None => Ok (default z (destination o))
  end.

(** [err] is an error [net/http] gave instead of a request. *)
Definition construction_error {env : Environment} (err : error) : Prop :=
  ∃ ctx method target body, http_NewRequestWithContext ctx method target body = Err err.

(** The method returned the error [err], or before that an error of making
    the request. *)
Definition fails_with {env : Environment} {T} (err : error) (R : result T) : Prop :=
  R = Err err ∨ ∃ e, construction_error e ∧ R = Err e.

(** The method returned the value [x], or an error of making the request. *)
Definition gives {env : Environment} {T} (x : T) (R : result T) : Prop :=
  R = Ok x ∨ ∃ e, construction_error e ∧ R = Err e.

End optimize.

(** ** A sample environment

    One possible behaviour of the library entry points, small enough to run
    the code on concrete inputs: a transport that is a function, a request
    constructor with the checks of [net/http] over a plain reading of the
    URL, and a reader of flat JSON objects. *)

Module sample.

Definition dq : ascii := "034"%char.
Definition backslash : ascii := "092"%char.

Definition quoted (s : string) : string := String dq s +:+ String dq EmptyString.

(** *** Requests and transport *)

Definition validMethod (m : string) : bool :=
  Nat.ltb 0 (String.length m) && string_forallb textproto.validHeaderFieldByte m.

Definition is_ctl (c : ascii) : bool :=
  (N_of_ascii c <? 32)%N || (N_of_ascii c =? 127)%N.

(** The text before the first [sep], and the rest from that [sep] on. *)
Fixpoint break_at (sep : ascii) (s : string) : string * string :=
  match s with
  | EmptyString => (EmptyString, EmptyString)
  | String c s' =>
      if Ascii.eqb c sep then (EmptyString, s)
      else let '(before, rest) := break_at sep s' in (String c before, rest)
  end.

Definition plain_URL (path : string) : url.URL :=
  url.mkURL "" "" None "" path "" false false "" "" "".

Definition parse (rawURL : string) : result url.URL :=
  if negb (string_forallb (λ c, negb (is_ctl c)) rawURL)
  then Err (errorString "net/url: invalid control character in URL")
  else
    let '(rest, frag) := url.cut "#" rawURL in
    let '(rest, query) := url.cut "?" rest in
    let '(scheme, after) := break_at ":" rest in
    match after with
    | String _ (String c1 (String c2 authority)) =>
        if Ascii.eqb c1 "/" && Ascii.eqb c2 "/" then
          let '(host, path) := break_at "/" authority in
          Ok (url.mkURL scheme "" None host path "" false false query frag "")
        else Ok (url.mkURL "" "" None "" rest "" false false query frag "")
    | _ => Ok (url.mkURL "" "" None "" rest "" false false query frag "")
    end.

Definition NewRequestWithContext (ctx : option context.Context)
    (method url_ : string) (body : option string) : result http.Request :=
  let method := if Nat.eqb (String.length method) 0 then "GET" else method in
  if negb (validMethod method) then Err (errorString "net/http: invalid method")
  else match ctx with
       | None => Err (errorString "net/http: nil Context")
       | Some c =>
           match parse url_ with
           | Err e => Err e
           | Ok u =>
               Ok (http.mkRequest method u ∅ body
                     (from_option (λ b, Z.of_nat (String.length b)) 0%Z body)
                     (url.Host u) c)
           end
       end.

(** A client without a transport of its own has no network to reach. *)
Definition Client_Do (c : http.Client) (req : http.Request) : result http.Response :=
  match http.Transport c with
  | Some rt => rt req
  | None => Err (errorString "dial tcp: network is unreachable")
  end.

Definition env (version : string) : Environment :=
  {| Version := version;
     http_NewRequestWithContext := NewRequestWithContext;
     http_Client_Do := Client_Do |}.

(** A transport that answers every request with one response. *)
Definition respond (code : Z) (body : string) : http.RoundTripper :=
  λ _, Ok (http.mkResponse "" code ∅ body).

Definition client_of (rt : http.RoundTripper) : http.Client :=
  http.mkClient (Some rt) (10 * time.Second).

(** *** Flat JSON objects *)

Inductive value :=
  | VString (s : string)
  | VNumber (n : Z)
  | VBool (b : bool)
  | VNull.

Definition is_space (c : ascii) : bool :=
  mem_byte c (String " " (String "009" (String "010" (String "013" EmptyString)))).

Fixpoint skip_space (s : string) : string :=
  match s with
  | EmptyString => EmptyString
  | String c s' => if is_space c then skip_space s' else s
  end.

(** The text of a string literal, read from behind its opening quote. *)
Fixpoint read_string (s : string) : option (string * string) :=
  match s with
  | EmptyString => None
  | String c s' =>
      if Ascii.eqb c dq then Some (EmptyString, s')
      else if Ascii.eqb c backslash then
        match s' with
        | String e s'' =>
            if Ascii.eqb e dq || Ascii.eqb e backslash || Ascii.eqb e "/"
            then prod_map (String e) id <$> read_string s''
            else None
        | EmptyString => None
        end
      else prod_map (String c) id <$> read_string s'
  end.

Fixpoint read_digits (acc : N) (s : string) : N * string :=
  match s with
  | EmptyString => (acc, EmptyString)
  | String c s' =>
      if is_digit c then read_digits (acc * 10 + (N_of_ascii c - 48)) s'
      else (acc, s)
  end.

Definition read_number (s : string) : option (Z * string) :=
  let '(negative, s) :=
    match s with
    | String c s' => if Ascii.eqb c "-" then (true, s') else (false, s)
    | EmptyString => (false, s)
    end in
  match s with
  | String c _ =>
      if is_digit c then
        let '(n, rest) := read_digits 0 s in
        Some (if negative then (- Z.of_N n)%Z else Z.of_N n, rest)
      else None
  | EmptyString => None
  end.

Fixpoint strip_prefix (p s : string) : option string :=
  match p, s with
  | EmptyString, _ => Some s
  | String a p', String b s' => if Ascii.eqb a b then strip_prefix p' s' else None
  | String _ _, EmptyString => None
  end.

Definition read_value (s : string) : option (value * string) :=
  match s with
  | String c s' =>
      if Ascii.eqb c dq then prod_map VString id <$> read_string s'
      else match strip_prefix "null" s, strip_prefix "true" s, strip_prefix "false" s with
           | Some rest, _, _ => Some (VNull, rest)
           | _, Some rest, _ => Some (VBool true, rest)
           | _, _, Some rest => Some (VBool false, rest)
           | _, _, _ => prod_map VNumber id <$> read_number s
           end
  | EmptyString => None
  end.

(** The members of an object, read from behind [{] or [,]. *)
Fixpoint read_members (fuel : nat) (s : string) : option (list (string * value)) :=
  match fuel with
  | O => None
  | S fuel =>
      match skip_space s with
      | String c s1 =>
          if Ascii.eqb c dq then
            '(key, s2) ← read_string s1;
            match skip_space s2 with
            | String colon s3 =>
                if Ascii.eqb colon ":" then
                  '(v, s4) ← read_value (skip_space s3);
                  match skip_space s4 with
                  | String d s5 =>
                      if Ascii.eqb d "}" then Some [(key, v)]
                      else if Ascii.eqb d "," then
                        cons (key, v) <$> read_members fuel s5
                      else None
                  | EmptyString => None
                  end
                else None
            | EmptyString => None
            end
          else None
      | EmptyString => None
      end
  end.

(** The first JSON value of the text, when it is a flat object. *)
Definition read_object (s : string) : option (list (string * value)) :=
  match skip_space s with
  | String c s1 =>
      if Ascii.eqb c "{" then
        match skip_space s1 with
        | String d _ =>
            if Ascii.eqb d "}" then Some [] else read_members (String.length s1) s1
        | EmptyString => None
        end
      else None
  | EmptyString => None
  end.

Definition set_string (v : value) (set : string → ErrorResponse) (e : ErrorResponse)
    : option ErrorResponse :=
  match v with
  | VString s => Some (set s)
  | VNull => Some e
  | _ => None
  end.

Definition set_int (v : value) (set : Z → ErrorResponse) (e : ErrorResponse)
    : option ErrorResponse :=
  match v with
  | VNumber n => Some (set n)
  | VNull => Some e
  | _ => None
  end.

(** One member stored into the field whose [json] tag is its key. *)
Definition store_member (e : ErrorResponse) (m : string * value) : option ErrorResponse :=
  let '(key, v) := m in
  let '(mkErrorResponse c em ed hr hs p ts ri te) := e in
  if String.eqb key "code" then set_int v (λ x, mkErrorResponse x em ed hr hs p ts ri te) e
  else if String.eqb key "error" then set_string v (λ x, mkErrorResponse c x ed hr hs p ts ri te) e
  else if String.eqb key "message" then set_string v (λ x, mkErrorResponse c em x hr hs p ts ri te) e
  else if String.eqb key "http_reason" then set_string v (λ x, mkErrorResponse c em ed x hs p ts ri te) e
  else if String.eqb key "http_status" then set_int v (λ x, mkErrorResponse c em ed hr x p ts ri te) e
  else if String.eqb key "path" then set_string v (λ x, mkErrorResponse c em ed hr hs x ts ri te) e
  else if String.eqb key "timestamp" then set_string v (λ x, mkErrorResponse c em ed hr hs p x ri te) e
  else if String.eqb key "request_id" then set_string v (λ x, mkErrorResponse c em ed hr hs p ts x te) e
  else if String.eqb key "transaction_error" then set_string v (λ x, mkErrorResponse c em ed hr hs p ts ri x) e
  else Some e.

Fixpoint store_members {T} (store : T → string * value → option T)
    (t : T) (ms : list (string * value)) : T * option error :=
  match ms with
  | [] => (t, None)
  | m :: ms =>
      match store t m with
      | Some t => store_members store t ms
      | None => (t, Some (errorString "json: cannot unmarshal value into Go struct field"))
      end
  end.

Definition decode_with {T} (store : T → string * value → option T)
    (data : string) (t : T) : T * option error :=
  match read_object data with
  | Some ms => store_members store t ms
  | None => (t, Some (errorString "invalid character looking for beginning of value"))
  end.

Definition unmarshal_ErrorResponse : Unmarshaler ErrorResponse :=
  {| json_Decode := decode_with store_member |}.

(** A destination with the two fields [name] and [handle]. *)
Record Named := mkNamed { name : string; handle : string }.

Definition store_named (d : Named) (m : string * value) : option Named :=
  let '(key, v) := m in
  match v with
  | VNull => Some d
  | VString s =>
      if String.eqb key "name" then Some (mkNamed s (handle d))
      else if String.eqb key "handle" then Some (mkNamed (name d) s)
      else Some d
  | _ => if String.eqb key "name" || String.eqb key "handle" then None else Some d
  end.

Definition unmarshal_Named : Unmarshaler Named :=
  {| json_Decode := decode_with store_named |}.

(** Values to encode: a text, or a channel, which has no JSON encoding. *)
Inductive Payload := Text (s : string) | Channel.

Definition marshal_Payload : Marshaler Payload :=
  {| json_Marshal p :=
       match p with
       | Text s => Ok (quoted s)
       | Channel => Err (errorString "json: unsupported type: chan int")
       end |}.

(** A plan reduced to its name, its handle and whether its VAT rate is a
    number: a float that is not has no JSON encoding. *)
Record Plan := mkPlan { plan_name : string; plan_handle : string; vat_is_number : bool }.

Definition store_plan (d : Plan) (m : string * value) : option Plan :=
  let '(key, v) := m in
  match v with
  | VNull => Some d
  | VString s =>
      if String.eqb key "name" then Some (mkPlan s (plan_handle d) (vat_is_number d))
      else if String.eqb key "handle" then Some (mkPlan (plan_name d) s (vat_is_number d))
      else Some d
  | _ => if String.eqb key "name" || String.eqb key "handle" then None else Some d
  end.

Definition zero_Plan : optimize.Zero Plan := {| optimize.zero := mkPlan "" "" true |}.
Definition zero_Named : optimize.Zero Named := {| optimize.zero := mkNamed "" "" |}.

Definition unmarshal_Plan : Unmarshaler Plan :=
  {| json_Decode := decode_with store_plan |}.

Definition marshal_Plan : Marshaler (option Plan) :=
  {| json_Marshal p :=
       match p with
       | None => Ok "null"
       | Some p =>
           if vat_is_number p then
             Ok ("{" +:+ quoted "name" +:+ ":" +:+ quoted (plan_name p) +:+ ","
                 +:+ quoted "handle" +:+ ":" +:+ quoted (plan_handle p) +:+ "}")
           else Err (errorString "json: unsupported value: NaN")
       end |}.

(** A reader of lists that knows the empty array and [null]. *)
Definition decode_list {T} (data : string) (l : list T) : list T * option error :=
  match strip_prefix "null" (skip_space data), strip_prefix "[]" (skip_space data) with
  | Some _, _ => (l, None)
  | _, Some _ => ([], None)
  | _, _ => (l, Some (errorString "json: cannot unmarshal value into Go slice"))
  end.

Definition unmarshal_list (T : Type) : Unmarshaler (list T) :=
  {| json_Decode := decode_list |}.

Definition format_string : optimize.Formatter string := {| optimize.format_v s := s |}.

(** Fixed inputs. *)
Definition ctx0 : option context.Context := Some (context.mkContext 0).

Definition env0 : Environment := env "0.1.0".

Definition request0 : http.Request :=
  http.mkRequest "GET" (plain_URL "/v1/plan") ∅ None 0 "" (context.mkContext 0).

(** A client whose transport answers with the given status and body. *)
Definition client (code : Z) (body : string) : optimize.Billwerk :=
  optimize.New "key" [optimize.WithHTTPClient (client_of (respond code body))].

Definition member (key : string) (v : string) : string := quoted key +:+ ":" +:+ v.

(** [{"code":105,"error":"invalid_handle","message":"Handle already exists"}] *)
Definition body_422 : string :=
  "{" +:+ member "code" "105" +:+ "," +:+ member "error" (quoted "invalid_handle")
      +:+ "," +:+ member "message" (quoted "Handle already exists") +:+ "}".

(** [{"name":"gold","handle":"gold-plan"}] *)
Definition body_gold : string :=
  "{" +:+ member "name" (quoted "gold") +:+ "," +:+ member "handle" (quoted "gold-plan") +:+ "}".

End sample.

(** * Properties *)

(** ** Strings *)

Section strings.
Implicit Types (s t u buf : string) (c : ascii).

Lemma string_app_cons c s t : String c s +:+ t = String c (s +:+ t).
Proof. reflexivity. Qed.

Lemma string_app_nil_l t : "" +:+ t = t.
Proof. reflexivity. Qed.

Lemma string_app_nil_r s : s +:+ "" = s.
Proof. induction s as [|c s IH]; [done|]. by rewrite string_app_cons, IH. Qed.

Lemma string_app_assoc s t u : (s +:+ t) +:+ u = s +:+ t +:+ u.
Proof. induction s as [|c s IH]; [done|]. by rewrite !string_app_cons, IH. Qed.

Lemma string_app_nonempty_r s t : t ≠ "" → s +:+ t ≠ "".
Proof. destruct s; [done|]. by rewrite string_app_cons. Qed.

Lemma string_app_nonempty_l s t : s ≠ "" → s +:+ t ≠ "".
Proof. destruct s; [done|]. by rewrite string_app_cons. Qed.

Lemma length_pos_nonempty s : Nat.ltb 0 (String.length s) = bool_decide (s ≠ "").
Proof. by destruct s. Qed.

Lemma join_cons_cons sep s t (l : list string) :
  join sep (s :: t :: l) = s +:+ sep +:+ join sep (t :: l).
Proof. reflexivity. Qed.

Lemma join_nonempty sep (l : list string) :
  l ≠ [] → Forall (λ s, s ≠ "") l → join sep l ≠ "".
Proof.
  destruct l as [|s [|t l]]; intros Hl Hne; [done|..].
  - by inversion Hne.
  - rewrite join_cons_cons. apply string_app_nonempty_l. by inversion Hne.
Qed.

Lemma join_app sep (l1 l2 : list string) :
  l1 ≠ [] → l2 ≠ [] → join sep (l1 ++ l2) = join sep l1 +:+ sep +:+ join sep l2.
Proof.
  intros Hl1 Hl2. induction l1 as [|s [|t l1] IH]; [done|..].
  - destruct l2; [done|]. reflexivity.
  - change ((s :: t :: l1) ++ l2) with (s :: t :: (l1 ++ l2)).
    rewrite !join_cons_cons, !string_app_assoc. do 2 f_equal.
    by apply IH.
Qed.

Lemma filter_Forall_id {A} (P : A → Prop) `{∀ x, Decision (P x)} (l : list A) :
  Forall P l → filter P l = l.
Proof.
  induction 1 as [|x l Hx Hl IH]; [done|].
  by rewrite filter_cons_True, IH.
Qed.

End strings.

(** ** [Values.Encode] *)

Section encode.
Implicit Types (v : url.Values) (k key value buf : string) (segs : list string).

Lemma sorted_keys_Permutation v : url.sorted_keys v ≡ₚ elements (dom v).
Proof. apply merge_sort_Permutation. Qed.

Lemma sorted_keys_NoDup v : NoDup (url.sorted_keys v).
Proof. rewrite sorted_keys_Permutation. apply NoDup_elements. Qed.

Lemma elem_of_sorted_keys v k : k ∈ url.sorted_keys v ↔ is_Some (v !! k).
Proof. by rewrite sorted_keys_Permutation, elem_of_elements, elem_of_dom. Qed.

Lemma sorted_keys_StronglySorted v : StronglySorted String.le (url.sorted_keys v).
Proof. apply StronglySorted_merge_sort; apply _. Qed.

Lemma render_pair_nonempty p : url.render_pair p ≠ "".
Proof. unfold url.render_pair. by apply string_app_nonempty_r. Qed.

Lemma extend_app buf segs1 segs2 :
  Forall (λ s, s ≠ "") segs1 →
  url.extend (url.extend buf segs1) segs2 = url.extend buf (segs1 ++ segs2).
Proof.
  intros Hne. destruct segs1 as [|s1 segs1]; [done|].
  destruct segs2 as [|s2 segs2]; [by rewrite (right_id_L [] (++))|].
  assert (join "&" (s1 :: segs1) ≠ "") as Hj by by apply join_nonempty.
  change (url.extend buf ((s1 :: segs1) ++ s2 :: segs2)) with
    (if bool_decide (buf ≠ "")
     then buf +:+ "&" +:+ join "&" ((s1 :: segs1) ++ s2 :: segs2)
     else join "&" ((s1 :: segs1) ++ s2 :: segs2)).
  rewrite (join_app "&" (s1 :: segs1) (s2 :: segs2)) by done.
  change (url.extend buf (s1 :: segs1)) with
    (if bool_decide (buf ≠ "")
     then buf +:+ "&" +:+ join "&" (s1 :: segs1) else join "&" (s1 :: segs1)).
  destruct (bool_decide (buf ≠ "")) eqn:Hbuf.
  - apply bool_decide_eq_true in Hbuf. unfold url.extend.
    rewrite bool_decide_true by by apply string_app_nonempty_l.
    by rewrite !string_app_assoc.
  - unfold url.extend. by rewrite bool_decide_true.
Qed.

Lemma write_pair_extend ke buf value :
  url.write_pair ke buf value = url.extend buf [ke +:+ "=" +:+ url.QueryEscape value].
Proof.
  unfold url.write_pair, url.extend. rewrite length_pos_nonempty.
  destruct buf as [|c buf]; [done|].
  rewrite bool_decide_true by done. by rewrite string_app_assoc.
Qed.

Lemma fold_write_pair ke buf (values : list string) :
  fold_left (url.write_pair ke) values buf
  = url.extend buf ((λ value, ke +:+ "=" +:+ url.QueryEscape value) <$> values).
Proof.
  revert buf. induction values as [|value values IH]; intros buf; [done|].
  simpl fold_left. rewrite IH, write_pair_extend, extend_app; [done|].
  constructor; [|done]. by apply string_app_nonempty_r.
Qed.

Lemma write_key_extend v buf k :
  url.write_key v buf k
  = url.extend buf (url.render_pair <$> ((λ value, (k, value)) <$> url.values_of v k)).
Proof.
  unfold url.write_key. rewrite fold_write_pair. by rewrite <- list_fmap_compose.
Qed.

Lemma fold_write_key v buf (keys : list string) :
  fold_left (url.write_key v) keys buf
  = url.extend buf (url.render_pair <$> (k ← keys; (λ value, (k, value)) <$> url.values_of v k)).
Proof.
  revert buf. induction keys as [|k keys IH]; intros buf; [done|].
  simpl fold_left. rewrite IH, write_key_extend, extend_app.
  - by rewrite <- fmap_app.
  - apply Forall_fmap, Forall_true. intros p. apply render_pair_nonempty.
Qed.

(** [Encode] joins the rendered pairs with [&]. *)
Lemma Encode_join v :
  url.Encode v = join "&" (url.render_pair <$> url.encode_pairs v).
Proof.
  unfold url.Encode, url.encode_pairs. rewrite fold_write_key.
  unfold url.extend. by destruct (url.render_pair <$> _).
Qed.

(** *** The query string read back *)

Lemma escape_byte_unescape c rest :
  url.QueryUnescape (url.escape_byte c +:+ rest) = String c <$> url.QueryUnescape rest.
Proof. destruct c as [[] [] [] [] [] [] [] []]; reflexivity. Qed.

Lemma QueryEscape_unescape s : url.QueryUnescape (url.QueryEscape s) = Some s.
Proof.
  induction s as [|c s IH]; [done|].
  simpl url.QueryEscape. by rewrite escape_byte_unescape, IH.
Qed.

#[global] Instance QueryEscape_inj : Inj (=) (=) url.QueryEscape.
Proof.
  intros s1 s2 Heq. apply (inj Some).
  by rewrite <- (QueryEscape_unescape s1), <- (QueryEscape_unescape s2), Heq.
Qed.

(** An escaped string holds neither [&] nor [=]. *)

Lemma string_forallb_app p s t :
  string_forallb p (s +:+ t) = string_forallb p s && string_forallb p t.
Proof.
  induction s as [|c s IH]; [done|].
  rewrite string_app_cons. simpl. by rewrite IH, andb_assoc.
Qed.

Lemma escape_byte_plain c : string_forallb url.plain (url.escape_byte c) = true.
Proof. destruct c as [[] [] [] [] [] [] [] []]; reflexivity. Qed.

Lemma QueryEscape_plain s : string_forallb url.plain (url.QueryEscape s) = true.
Proof.
  induction s as [|c s IH]; [done|].
  simpl url.QueryEscape. by rewrite string_forallb_app, escape_byte_plain, IH.
Qed.

Lemma no_byte_plain sep s :
  sep = "&"%char ∨ sep = "="%char ∨ sep = ";"%char →
  string_forallb url.plain s = true → url.no_byte sep s = true.
Proof.
  intros Hsep. unfold url.no_byte. induction s as [|c s IH]; [done|]. simpl.
  intros [[[Hamp Heq]%andb_prop Hsemi]%andb_prop Hs]%andb_prop. rewrite IH by done.
  by destruct Hsep as [->|[->| ->]]; rewrite ?Hamp, ?Heq, ?Hsemi.
Qed.

Lemma split_on_no_byte sep s : url.no_byte sep s = true → url.split_on sep s = [s].
Proof.
  unfold url.no_byte. induction s as [|c s IH]; [done|]. simpl.
  intros [Hc Hs]%andb_prop. apply negb_true_iff in Hc. by rewrite Hc, IH.
Qed.

Lemma split_on_app sep s rest :
  url.no_byte sep s = true →
  url.split_on sep (s +:+ String sep rest) = s :: url.split_on sep rest.
Proof.
  unfold url.no_byte. induction s as [|c s IH].
  - intros _. rewrite string_app_nil_l. simpl. by rewrite Ascii.eqb_refl.
  - intros [Hc Hs]%andb_prop. apply negb_true_iff in Hc.
    rewrite string_app_cons. simpl. by rewrite Hc, IH.
Qed.

Lemma split_on_join sep (l : list string) :
  l ≠ [] → Forall (λ s, url.no_byte sep s = true) l →
  url.split_on sep (join (String sep "") l) = l.
Proof.
  induction l as [|s [|t l] IH]; intros Hl Hall; [done|..].
  - apply split_on_no_byte. by inversion Hall.
  - rewrite join_cons_cons. inversion_clear Hall.
    change (String sep "" +:+ ?x) with (String sep x).
    rewrite split_on_app by done. f_equal. by apply IH.
Qed.

Lemma cut_app sep s t :
  url.no_byte sep s = true → url.cut sep (s +:+ String sep t) = (s, t).
Proof.
  unfold url.no_byte. induction s as [|c s IH].
  - intros _. rewrite string_app_nil_l. simpl. by rewrite Ascii.eqb_refl.
  - intros [Hc Hs]%andb_prop. apply negb_true_iff in Hc.
    rewrite string_app_cons. simpl. by rewrite Hc, IH.
Qed.

Lemma no_byte_app sep s t :
  url.no_byte sep (s +:+ t) = url.no_byte sep s && url.no_byte sep t.
Proof. apply string_forallb_app. Qed.

Lemma render_pair_no_byte sep p :
  sep = "&"%char ∨ sep = ";"%char → url.no_byte sep (url.render_pair p) = true.
Proof.
  intros Hsep. unfold url.render_pair. rewrite !no_byte_app.
  assert (∀ s, url.no_byte sep (url.QueryEscape s) = true) as Hesc.
  { intros s. apply no_byte_plain; [|apply QueryEscape_plain]. destruct Hsep; auto. }
  rewrite !Hesc. by destruct Hsep as [->| ->].
Qed.

(** Reading the encoded query back gives the pairs that were written. *)
Lemma query_pairs_Encode v : url.query_pairs (url.Encode v) = Some (url.encode_pairs v).
Proof.
  rewrite Encode_join. unfold url.query_pairs.
  destruct (url.encode_pairs v) as [|p ps] eqn:Hps; [done|].
  rewrite split_on_join; [|done|].
  2:{ apply Forall_fmap, Forall_true. intros q. apply render_pair_no_byte. by left. }
  rewrite filter_Forall_id.
  2:{ apply Forall_fmap, Forall_true. intros q. apply render_pair_nonempty. }
  apply mapM_fmap_Some. intros [k value].
  rewrite render_pair_no_byte by by right.
  unfold url.render_pair. simpl.
  change ("=" +:+ ?x) with (String "="%char x).
  rewrite cut_app by (apply no_byte_plain; [auto|apply QueryEscape_plain]).
  by rewrite !QueryEscape_unescape.
Qed.

(** *** The pairs [Encode] writes *)

Lemma pairs_filter_key (f : string → list string) (keys : list string) k :
  NoDup keys →
  filter (λ p, p.1 = k) (k' ← keys; (λ value, (k', value)) <$> f k')
  = if decide (k ∈ keys) then (λ value, (k, value)) <$> f k else [].
Proof.
  induction 1 as [|k' keys Hk' Hnd IH]; [done|].
  rewrite bind_cons, filter_app, IH.
  destruct (decide (k' = k)) as [->|Hne].
  - destruct (decide (k ∈ k :: keys)) as [_|[]]; [|by left].
    destruct (decide (k ∈ keys)) as [|_]; [done|].
    rewrite filter_Forall_id, (right_id_L [] (++)); [done|].
    by apply Forall_fmap, Forall_true.
  - assert (filter (λ p, p.1 = k) ((λ value, (k', value)) <$> f k') = []) as ->.
    { induction (f k') as [|x l IHl]; [done|].
      rewrite fmap_cons, filter_cons_False; done. }
    destruct (decide (k ∈ keys)) as [Hin|Hnin];
      destruct (decide (k ∈ k' :: keys)) as [Hin'|Hnin']; try done.
    + destruct Hnin'. by right.
    + by apply elem_of_cons in Hin' as [?|?].
Qed.

(** The pairs of one key are its values, in the order the map holds them. *)
Lemma encode_pairs_filter v k :
  filter (λ p, p.1 = k) (url.encode_pairs v)
  = (λ value, (k, value)) <$> url.values_of v k.
Proof.
  unfold url.encode_pairs. rewrite pairs_filter_key by apply sorted_keys_NoDup.
  case_decide as Hk; [done|].
  rewrite elem_of_sorted_keys, <- not_eq_None_Some in Hk.
  apply dec_stable in Hk. unfold url.values_of. by rewrite Hk.
Qed.

Lemma pairs_keys_elem_of (f : string → list string) (keys : list string) k :
  k ∈ (k' ← keys; (λ value, (k', value)) <$> f k').*1 → k ∈ keys.
Proof.
  intros [[k1 x] [-> Hin]]%list_elem_of_fmap.
  apply list_elem_of_bind in Hin as (k2 & Hin & Hk2).
  apply list_elem_of_fmap in Hin as (y & [= -> ->] & _). done.
Qed.

Lemma pairs_keys_sorted (f : string → list string) (keys : list string) :
  StronglySorted String.le keys →
  StronglySorted String.le (k ← keys; (λ value, (k, value)) <$> f k).*1.
Proof.
  induction 1 as [|k keys Hs IH Hall]; [constructor|].
  rewrite bind_cons, fmap_app. apply StronglySorted_app_2.
  - intros k1 k2 Hk1 Hk2%pairs_keys_elem_of.
    apply list_elem_of_fmap in Hk1 as ([k1' x] & -> & Hk1).
    apply list_elem_of_fmap in Hk1 as (y & [= -> ->] & _).
    rewrite Forall_forall in Hall. by apply Hall.
  - rewrite <- list_fmap_compose.
    induction (f k) as [|x l IHl]; [constructor|].
    rewrite fmap_cons. constructor; [done|].
    apply Forall_fmap, Forall_true. intros y. simpl. done.
  - done.
Qed.

(** The keys appear in ascending order. *)
Lemma encode_pairs_sorted v : StronglySorted String.le (url.encode_pairs v).*1.
Proof. apply pairs_keys_sorted, sorted_keys_StronglySorted. Qed.

(** *** [Set] and [Add] *)

Lemma values_of_Set v key value k :
  url.values_of (url.Set_ v key value) k
  = if decide (key = k) then [value] else url.values_of v k.
Proof.
  unfold url.values_of, url.Set_. rewrite lookup_insert. by case_decide.
Qed.

Lemma values_of_Add v key value k :
  url.values_of (url.Add v key value) k
  = if decide (key = k) then url.values_of v k ++ [value] else url.values_of v k.
Proof.
  unfold url.values_of at 1, url.Add. rewrite lookup_insert.
  case_decide; by subst.
Qed.

(** Additions under different keys commute. *)
Lemma Add_commute v k1 x1 k2 x2 :
  k1 ≠ k2 →
  url.Add (url.Add v k1 x1) k2 x2 = url.Add (url.Add v k2 x2) k1 x1.
Proof.
  intros Hne.
  transitivity (<[k2 := url.values_of v k2 ++ [x2]]>
                  (<[k1 := url.values_of v k1 ++ [x1]]> v)).
  - unfold url.Add at 1. by rewrite values_of_Add, decide_False.
  - unfold url.Add at 1. rewrite values_of_Add, decide_False by done.
    by apply insert_insert_ne.
Qed.

End encode.

(** ** The builder *)

Section builder.
Context {env : Environment}.
Implicit Types (r : request.request) (req : http.Request) (m key value : string).

Lemma set_method_eta r : request.set_method r (request.method r) = r.
Proof. by destruct r. Qed.

Lemma GET_build r : request.GET r = request.build (request.set_method r "GET").
Proof. reflexivity. Qed.

Lemma POST_build r : request.POST r = request.build (request.set_method r "POST").
Proof. reflexivity. Qed.

Lemma PUT_build r : request.PUT r = request.build (request.set_method r "PUT").
Proof. reflexivity. Qed.

Lemma DELETE_build r : request.DELETE r = request.build (request.set_method r "DELETE").
Proof. reflexivity. Qed.

(** What a successful [build] returns. *)
Lemma build_Ok r r' req :
  request.build r = (r', Ok req) →
  ∃ req0,
    http_NewRequestWithContext (request.ctx r) (request.method r)
      (request.baseURL r +:+ request.endpoint r) (request.body r) = Ok req0
    ∧ r' = request.set_header r
             (http.Header_Set (request.header r) "User-Agent" request.UserAgent)
    ∧ req = http.with_RawQuery (http.with_Header req0 (request.header r'))
              (url.Encode (request.params r)).
Proof.
  unfold request.build, request.fullURL.
  destruct (http_NewRequestWithContext _ _ _ _) as [req0|err]; [|done].
  intros [= <- <-]. by exists req0.
Qed.

Lemma build_RawQuery r r' req :
  request.build r = (r', Ok req) →
  url.RawQuery (http.URL req) = url.Encode (request.params r).
Proof. intros (req0 & _ & _ & ->)%build_Ok. reflexivity. Qed.

Lemma build_Header r r' req :
  request.build r = (r', Ok req) →
  http.Header_ req = http.Header_Set (request.header r) "User-Agent" request.UserAgent.
Proof. intros (req0 & _ & -> & ->)%build_Ok. reflexivity. Qed.

Lemma params_AddParams k (vs : list string) r :
  url.values_of
    (request.params (fold_left (λ rb value, request.AddParam k value rb) vs r)) k
  = url.values_of (request.params r) k ++ vs.
Proof.
  revert r. induction vs as [|x vs IH]; intros r; simpl.
  - by rewrite (right_id_L [] (++)).
  - rewrite IH. simpl. rewrite values_of_Add, decide_True by done.
    by rewrite <- (assoc_L (++)).
Qed.

Lemma params_AddParams_ne k k' (vs : list string) r :
  k ≠ k' →
  url.values_of
    (request.params (fold_left (λ rb value, request.AddParam k value rb) vs r)) k'
  = url.values_of (request.params r) k'.
Proof.
  intros Hne. revert r. induction vs as [|x vs IH]; intros r; simpl; [done|].
  rewrite IH. simpl. by rewrite values_of_Add, decide_False.
Qed.

(** Calls of [AddParam] under any keys, in any interleaving: each key
    collects its own values in call order. *)
Lemma params_AddParam_calls (calls : list (string * string)) r k :
  url.values_of
    (request.params (fold_left (λ rb c, request.AddParam c.1 c.2 rb) calls r)) k
  = url.values_of (request.params r) k ++ (filter (λ c, c.1 = k) calls).*2.
Proof.
  revert r. induction calls as [|[key value] calls IH]; intros r; simpl.
  - by rewrite (right_id_L [] (++)).
  - rewrite IH. simpl. rewrite values_of_Add.
    destruct (decide (key = k)) as [->|Hne].
    + rewrite filter_cons_True by done. by rewrite <- (assoc_L (++)).
    + by rewrite filter_cons_False.
Qed.

(** C3. The builder hands the base URL followed directly by the endpoint,
    with nothing inserted, removed or merged where they meet, to [net/http]
    as the address to read: base URL ["https://api.example.com/v1"] and
    endpoint ["/plan/gold-plan"] are handed over as
    ["https://api.example.com/v1/plan/gold-plan"], and a base URL ending in a
    slash keeps both slashes.  The URL of the materialized request is what
    [net/http] read from that concatenation in every component but the
    query: scheme, user, host, path and fragment are those of the
    concatenation, the host of the request too, and the query is the
    encoding of the parameters of the builder, whatever query the base URL
    or the endpoint spelled out.  Only the concatenation matters, not where
    the two strings meet. *)
Theorem build_target_from_concatenation r (b e m : string) r' req :
  request.build (request.set_method (request.WithEndpoint e (request.WithBaseURL b r)) m)
  = (r', Ok req) →
  ∃ req0,
    http_NewRequestWithContext (request.ctx r) m (b +:+ e) (request.body r) = Ok req0
    ∧ url.Scheme (http.URL req) = url.Scheme (http.URL req0)
    ∧ url.Opaque (http.URL req) = url.Opaque (http.URL req0)
    ∧ url.User (http.URL req) = url.User (http.URL req0)
    ∧ url.Host (http.URL req) = url.Host (http.URL req0)
    ∧ url.Path (http.URL req) = url.Path (http.URL req0)
    ∧ url.RawPath (http.URL req) = url.RawPath (http.URL req0)
    ∧ url.OmitHost (http.URL req) = url.OmitHost (http.URL req0)
    ∧ url.ForceQuery (http.URL req) = url.ForceQuery (http.URL req0)
    ∧ url.Fragment (http.URL req) = url.Fragment (http.URL req0)
    ∧ url.RawFragment (http.URL req) = url.RawFragment (http.URL req0)
    ∧ url.RawQuery (http.URL req) = url.Encode (request.params r)
    ∧ http.Host req = http.Host req0
    ∧ (∀ b' e', b' +:+ e' = b +:+ e →
         (request.build
            (request.set_method (request.WithEndpoint e' (request.WithBaseURL b' r)) m)).2
         = Ok req)
    ∧ (b = "https://api.example.com/v1" → e = "/plan/gold-plan" →
       http_NewRequestWithContext (request.ctx r) m
         "https://api.example.com/v1/plan/gold-plan" (request.body r)
       = Ok req0)
    ∧ (b = "https://api.example.com/v1/" → e = "/plan/gold-plan" →
       http_NewRequestWithContext (request.ctx r) m
         "https://api.example.com/v1//plan/gold-plan" (request.body r)
       = Ok req0).
Proof.
  unfold request.build, request.fullURL. simpl.
  destruct (http_NewRequestWithContext (request.ctx r) m (b +:+ e) (request.body r))
    as [req0|err] eqn:Hnew; [|done].
  intros [= _ <-]. exists req0.
  split; [reflexivity|]. do 12 (split; [reflexivity|]).
  split; [|split].
  - intros b' e' Heq. unfold request.build, request.fullURL. simpl.
    by rewrite Heq, Hnew.
  - by intros -> ->.
  - by intros -> ->.
Qed.

(** C4. After [N] calls [AddParam(k, v1)] ... [AddParam(k, vN)] the query
    string of the materialized request, read back as a sequence of
    [key=value] settings, holds for [k] the values the key had before
    followed by [v1] ... [vN], in that order; on a key without earlier
    values these are exactly [N] occurrences, and on a builder without other
    parameters the query string is exactly the [N] escaped settings joined
    by [&]. *)
Theorem AddParam_query_occurrences r (k : string) (vs : list string) m r' req :
  request.build
    (request.set_method (fold_left (λ rb value, request.AddParam k value rb) vs r) m)
  = (r', Ok req) →
  ∃ pairs,
    url.query_pairs (url.RawQuery (http.URL req)) = Some pairs
    ∧ filter (λ p, p.1 = k) pairs
      = (λ value, (k, value)) <$> (url.values_of (request.params r) k ++ vs)
    ∧ (url.values_of (request.params r) k = [] →
       length (filter (λ p, p.1 = k) pairs) = length vs)
    ∧ (request.params r = ∅ →
       url.RawQuery (http.URL req)
       = join "&" ((λ value, url.QueryEscape k +:+ "=" +:+ url.QueryEscape value) <$> vs)).
Proof.
  intros Hb%build_RawQuery. simpl in Hb. rewrite Hb.
  set (r1 := fold_left _ vs r) in *.
  exists (url.encode_pairs (request.params r1)).
  assert (filter (λ p, p.1 = k) (url.encode_pairs (request.params r1))
          = (λ value, (k, value)) <$> (url.values_of (request.params r) k ++ vs)) as Hk.
  { rewrite encode_pairs_filter. subst r1. by rewrite params_AddParams. }
  split_and!.
  - apply query_pairs_Encode.
  - done.
  - intros Hnil. by rewrite Hk, Hnil, length_fmap.
  - intros Hempty. rewrite Encode_join.
    assert (url.encode_pairs (request.params r1) = (λ value, (k, value)) <$> vs) as ->.
    { assert (url.values_of (request.params r) k = []) as Hnil.
      { unfold url.values_of. by rewrite Hempty, lookup_empty. }
      rewrite Hnil in Hk. simpl in Hk. rewrite <- Hk.
      symmetry. apply filter_Forall_id, Forall_forall. intros [k' x] Hin. simpl.
      destruct (decide (k' = k)) as [|Hne]; [done|]. exfalso.
      assert ((k', x) ∈ filter (λ p, p.1 = k') (url.encode_pairs (request.params r1)))
        as Hin' by by apply list_elem_of_filter.
      rewrite encode_pairs_filter in Hin'. subst r1.
      rewrite params_AddParams_ne, Hempty in Hin' by done.
      unfold url.values_of in Hin'. rewrite lookup_empty in Hin'. simpl in Hin'.
      by apply not_elem_of_nil in Hin'. }
    by rewrite <- list_fmap_compose.
Qed.

(** ** Headers *)

Lemma toLower_case c :
  textproto.toLower (textproto.toUpper c) = textproto.toLower c
  ∧ textproto.toLower (textproto.toLower c) = textproto.toLower c
  ∧ textproto.toUpper (textproto.toLower c) = textproto.toUpper c
  ∧ textproto.validHeaderFieldByte (textproto.toLower c) = textproto.validHeaderFieldByte c.
Proof. destruct c as [[] [] [] [] [] [] [] []]; by vm_compute. Qed.

Lemma lower_canonicalize upper s :
  textproto.lower (textproto.canonicalize upper s) = textproto.lower s.
Proof.
  revert upper. induction s as [|c s IH]; intros upper; [done|]. simpl.
  rewrite IH. f_equal. destruct (toLower_case c) as (? & ? & _). by destruct upper.
Qed.

Lemma canonicalize_lower upper s :
  textproto.canonicalize upper (textproto.lower s) = textproto.canonicalize upper s.
Proof.
  revert upper. induction s as [|c s IH]; intros upper; [done|]. simpl.
  destruct (toLower_case c) as (_ & Hll & Hul & _).
  destruct upper; by rewrite ?Hll, ?Hul, IH.
Qed.

Lemma valid_lower s :
  string_forallb textproto.validHeaderFieldByte (textproto.lower s)
  = string_forallb textproto.validHeaderFieldByte s.
Proof.
  induction s as [|c s IH]; [done|]. simpl.
  destruct (toLower_case c) as (_ & _ & _ & ->). by rewrite IH.
Qed.

(** Keys that differ in case only have one canonical form, when they are
    made of token characters. *)
Lemma canonical_fold key k :
  string_forallb textproto.validHeaderFieldByte k = true →
  textproto.lower (textproto.CanonicalMIMEHeaderKey key) = textproto.lower k →
  textproto.CanonicalMIMEHeaderKey key = textproto.CanonicalMIMEHeaderKey k.
Proof.
  intros Hk. unfold textproto.CanonicalMIMEHeaderKey. rewrite Hk.
  destruct (string_forallb _ key) eqn:Hkey.
  - rewrite lower_canonicalize. intros Hlow.
    by rewrite <- (canonicalize_lower true key), Hlow, canonicalize_lower.
  - intros Hlow. by rewrite <- valid_lower, Hlow, valid_lower, Hk in Hkey.
Qed.

Lemma canonical_keys_Set (h : http.Header) key value :
  http.canonical_keys h → http.canonical_keys (http.Header_Set h key value).
Proof.
  intros Hh key' vs. unfold http.Header_Set. rewrite lookup_insert.
  case_decide as Hk; [intros _; by exists key|apply Hh].
Qed.

Lemma canonical_keys_call (c : request.Call) r :
  http.canonical_keys (request.header r) →
  http.canonical_keys (request.header (request.call c r)).
Proof.
  destruct c; unfold request.call; try done; intros Hr.
  - by apply canonical_keys_Set.
  - by apply canonical_keys_Set.
  - by apply canonical_keys_Set.
  - unfold request.WithJSONBody. destruct (json_Encode _ _). simpl.
    by apply canonical_keys_Set.
Qed.

Lemma canonical_keys_chain (calls : list request.Call) r :
  http.canonical_keys (request.header r) →
  http.canonical_keys (request.header (request.chain calls r)).
Proof.
  unfold request.chain. revert r.
  induction calls as [|c calls IH]; intros r Hr; [done|].
  simpl. by apply IH, canonical_keys_call.
Qed.

Lemma Header_Get_Set (h : http.Header) key value :
  http.Header_Get (http.Header_Set h key value) key = value.
Proof. unfold http.Header_Get, http.Header_Set. by rewrite lookup_insert_eq. Qed.

Lemma Header_Get_Set_ne (h : http.Header) key key' value :
  textproto.CanonicalMIMEHeaderKey key ≠ textproto.CanonicalMIMEHeaderKey key' →
  http.Header_Get (http.Header_Set h key value) key' = http.Header_Get h key'.
Proof.
  intros Hne. unfold http.Header_Get, http.Header_Set. by rewrite lookup_insert_ne.
Qed.

Lemma canonical_known :
  textproto.CanonicalMIMEHeaderKey "Authorization" = "Authorization"
  ∧ textproto.CanonicalMIMEHeaderKey "Content-Type" = "Content-Type"
  ∧ textproto.CanonicalMIMEHeaderKey "User-Agent" = "User-Agent"
  ∧ textproto.CanonicalMIMEHeaderKey "Accept" = "Accept".
Proof. by vm_compute. Qed.

Lemma header_WithHeader key value r :
  request.header (request.WithHeader key value r)
  = <[textproto.CanonicalMIMEHeaderKey key := [value]]> (request.header r).
Proof. reflexivity. Qed.

Lemma header_WithJSONBody {V} {M : Marshaler V} (v : V) r :
  request.header (request.WithJSONBody v r)
  = <["Content-Type" := ["application/json; charset=utf-8"]]> (request.header r).
Proof.
  unfold request.WithJSONBody. destruct (json_Encode _ _) as [buf err]. simpl.
  unfold http.Header_Set. by rewrite (proj1 (proj2 canonical_known)).
Qed.

Lemma header_call (c : request.Call) r key :
  request.header_written c ≠ Some key →
  request.header (request.call c r) !! key = request.header r !! key.
Proof.
  destruct canonical_known as (Hauth & Hct & _).
  destruct c; intros Hne; simpl in Hne; unfold request.call; try done.
  - rewrite header_WithHeader, lookup_insert_ne; congruence.
  - unfold request.WithBasicAuth. rewrite header_WithHeader, Hauth.
    rewrite lookup_insert_ne; congruence.
  - unfold request.WithContentTypeJSON. rewrite header_WithHeader, Hct.
    rewrite lookup_insert_ne; congruence.
  - rewrite header_WithJSONBody, lookup_insert_ne; congruence.
Qed.

Lemma header_chain (calls : list request.Call) r key :
  Forall (λ c, request.header_written c ≠ Some key) calls →
  request.header (request.chain calls r) !! key = request.header r !! key.
Proof.
  unfold request.chain. intros Hall. revert r.
  induction Hall as [|c calls Hc Hall IH]; intros r; simpl; [done|].
  by rewrite IH, header_call.
Qed.

(** C8. The request a terminal method returns carries the [User-Agent] of
    the library, ["go-billwerk/"] followed by the version, as the only value
    of that header, whatever the header map of the builder held before: a
    [User-Agent] set with [WithHeader], under any spelling of the key, is
    replaced, and for a builder configured by calls only the header map of
    the request has no other key that reads [User-Agent] when case is
    ignored. *)
Theorem UserAgent_not_overridable r m r' req :
  request.build (request.set_method r m) = (r', Ok req) →
  http.Header_Get (http.Header_ req) "User-Agent" = request.UserAgent
  ∧ http.Header_ req !! "User-Agent" = Some [request.UserAgent]
  ∧ request.UserAgent = "go-billwerk/" +:+ Version
  ∧ (∀ key value r0,
       r = request.WithHeader key value r0 →
       textproto.lower key = "user-agent" →
       http.Header_ req
       = http.Header_Set (request.header r0) "User-Agent" request.UserAgent)
  ∧ (∀ ctx calls,
       r = request.chain calls (request.New ctx) →
       ∀ key vs,
         http.Header_ req !! key = Some vs → textproto.lower key = "user-agent" →
         key = "User-Agent" ∧ vs = [request.UserAgent]).
Proof.
  intros Hb%build_Header. simpl in Hb. rewrite Hb.
  destruct canonical_known as (_ & _ & Hua & _).
  assert (∀ key, textproto.lower key = "user-agent" →
                 textproto.CanonicalMIMEHeaderKey key = "User-Agent") as Hfold.
  { intros key Hkey. rewrite <- Hua. apply canonical_fold; [done|].
    unfold textproto.CanonicalMIMEHeaderKey at 1.
    destruct (string_forallb _ key); [|done]. by rewrite lower_canonicalize. }
  split_and!.
  - apply Header_Get_Set.
  - unfold http.Header_Set. by rewrite lookup_insert_eq.
  - reflexivity.
  - intros key value r0 -> Hkey. unfold request.WithHeader, http.Header_Set. simpl.
    rewrite (Hfold key Hkey), Hua. apply insert_insert_eq.
  - intros ctx calls -> key vs Hlook Hkey.
    assert (http.canonical_keys
              (http.Header_Set (request.header (request.chain calls (request.New ctx)))
                 "User-Agent" request.UserAgent)) as Hcan.
    { apply canonical_keys_Set, canonical_keys_chain. intros k0 vs0. simpl.
      by rewrite lookup_empty. }
    destruct (Hcan key vs Hlook) as [k0 ->].
    assert (textproto.CanonicalMIMEHeaderKey k0 = "User-Agent") as Hk0.
    { rewrite <- Hua. by apply canonical_fold. }
    rewrite Hk0 in Hlook |- *. split; [done|].
    unfold http.Header_Set in Hlook. rewrite Hua, lookup_insert_eq in Hlook. congruence.
Qed.

(** C10. In the query string of the materialized request the settings are
    ordered by key, ascending in the byte-wise lexicographic order of the
    keys, whatever the order in which the keys were given to the builder;
    the settings of one key keep the order in which its values were added. *)
Theorem query_keys_sorted r m r' req :
  request.build (request.set_method r m) = (r', Ok req) →
  ∃ pairs,
    url.query_pairs (url.RawQuery (http.URL req)) = Some pairs
    ∧ url.RawQuery (http.URL req) = join "&" (url.render_pair <$> pairs)
    ∧ StronglySorted String.le pairs.*1
    ∧ (∀ k, filter (λ p, p.1 = k) pairs
            = (λ value, (k, value)) <$> url.values_of (request.params r) k)
    ∧ (∀ k1 x1 k2 x2, k1 ≠ k2 →
         request.AddParam k2 x2 (request.AddParam k1 x1 r)
         = request.AddParam k1 x1 (request.AddParam k2 x2 r))
    ∧ (∀ k1 x1 k2 x2, k1 ≠ k2 →
         request.WithParam k2 x2 (request.WithParam k1 x1 r)
         = request.WithParam k1 x1 (request.WithParam k2 x2 r)).
Proof.
  intros Hb%build_RawQuery. simpl in Hb. rewrite Hb.
  exists (url.encode_pairs (request.params r)). split_and!.
  - apply query_pairs_Encode.
  - apply Encode_join.
  - apply encode_pairs_sorted.
  - apply encode_pairs_filter.
  - intros k1 x1 k2 x2 Hne. unfold request.AddParam. simpl.
    by rewrite Add_commute.
  - intros k1 x1 k2 x2 Hne. unfold request.WithParam, url.Set_. simpl.
    by rewrite insert_insert_ne.
Qed.

(** C7. When the encoding of the value fails, [WithJSONBody] returns the
    builder all the same, with the JSON content type set and an empty
    buffer as body, the error being dropped: the terminal methods then
    behave as for an empty body. *)
Theorem WithJSONBody_encode_failure {V} {M : Marshaler V} (v : V) (e : error) r m :
  json_Marshal v = Err e →
  request.WithJSONBody v r = request.WithBody (Some "") (request.WithContentTypeJSON r)
  ∧ request.body (request.WithJSONBody v r) = Some ""
  ∧ request.build (request.set_method (request.WithJSONBody v r) m)
    = request.build
        (request.set_method
           (request.WithBody (Some "") (request.WithContentTypeJSON r)) m).
Proof.
  intros He.
  assert (request.WithJSONBody v r
          = request.WithBody (Some "") (request.WithContentTypeJSON r)) as Heq.
  { unfold request.WithJSONBody, json_Encode. by rewrite He. }
  by rewrite Heq.
Qed.

End builder.

(** ** The client *)

Section client.
Context {env : Environment} {UE : Unmarshaler ErrorResponse}.
Implicit Types (b : optimize.Billwerk) (g : optimize.Vars) (req : http.Request)
  (res : http.Response).

Lemma WithHTTPClient_apiKey client b :
  optimize.apiKey (optimize.WithHTTPClient client b) = optimize.apiKey b.
Proof. reflexivity. Qed.

Lemma options_apiKey (opts : list optimize.Option) b :
  Forall (λ opt, ∀ b, optimize.apiKey (opt b) = optimize.apiKey b) opts →
  optimize.apiKey (fold_left (λ b opt, opt b) opts b) = optimize.apiKey b.
Proof.
  intros Hall. revert b.
  induction Hall as [|opt opts Hopt Hall IH]; intros b; simpl; [done|].
  by rewrite IH, Hopt.
Qed.

Lemma New_apiKey (k : string) (opts : list optimize.Option) :
  Forall (λ opt, ∀ b, optimize.apiKey (opt b) = optimize.apiKey b) opts →
  optimize.apiKey (optimize.New k opts) = k.
Proof. intros Hall. unfold optimize.New. by rewrite options_apiKey. Qed.

Lemma newBillwerkRequest_Authorization g b ctx :
  request.header (optimize.newBillwerkRequest g b ctx) !! "Authorization"
  = Some ["Basic " +:+ base64.EncodeToString (optimize.apiKey b +:+ ":")].
Proof.
  destruct canonical_known as (Hauth & _ & _ & Hacc).
  unfold optimize.newBillwerkRequest, request.WithBasicAuth.
  rewrite !header_WithHeader, Hauth, Hacc.
  rewrite lookup_insert_ne by done. by rewrite lookup_insert_eq.
Qed.

(** C5. A builder handed out by a client made with API key [k] has the
    [Authorization] header ["Basic "] followed by the base64 encoding of
    [k] and a colon, the Basic credentials of user [k] with an empty
    password.  This holds whatever the base URL and the options of the
    client are, as long as the options leave the key alone as
    [WithHTTPClient] does, and it stays so under any further configuration
    of endpoint, parameters and body, up to the materialized request, as
    long as no call writes that header itself. *)
Theorem Authorization_is_basic_of_key g (k : string) (opts : list optimize.Option)
    ctx (calls : list request.Call) :
  Forall (λ opt, ∀ b, optimize.apiKey (opt b) = optimize.apiKey b) opts →
  Forall (λ c, request.header_written c ≠ Some "Authorization") calls →
  let value := "Basic " +:+ base64.EncodeToString (k +:+ ":") in
  let handed := optimize.newBillwerkRequest g (optimize.New k opts) ctx in
  http.Header_Get (request.header handed) "Authorization" = value
  ∧ http.Header_Get (request.header (request.chain calls handed)) "Authorization" = value
  ∧ (∀ m r' req,
       request.build (request.set_method (request.chain calls handed) m) = (r', Ok req) →
       http.Header_Get (http.Header_ req) "Authorization" = value).
Proof.
  intros Hopts Hcalls value handed.
  destruct canonical_known as (Hauth & _ & Hua & _).
  assert (request.header handed !! "Authorization" = Some [value]) as Hh.
  { subst handed value. by rewrite newBillwerkRequest_Authorization, New_apiKey. }
  assert (request.header (request.chain calls handed) !! "Authorization" = Some [value])
    as Hc by by rewrite header_chain.
  split_and!.
  - unfold http.Header_Get. by rewrite Hauth, Hh.
  - unfold http.Header_Get. by rewrite Hauth, Hc.
  - intros m r' req Hb%build_Header. simpl in Hb.
    unfold http.Header_Get. rewrite Hb, Hauth. unfold http.Header_Set.
    rewrite Hua, lookup_insert_ne by done. by rewrite Hc.
Qed.

(** *** [Do] *)

(** C1. For a response whose status code is below 200 or at least 400,
    [Do] reads the body as an [ErrorResponse].  When that succeeds it
    returns the decoded [ErrorResponse] as the error; when it fails it
    returns an error made of the status code alone, with the text
    ["unknown error, status code: "] and the code in decimal, which wraps
    nothing.  The destination is left as it was and the body is closed. *)
Theorem Do_error_status {V} {U : Unmarshaler V} b req (v : option V) res :
  http_Client_Do (optimize.httpClient b) req = Ok res →
  (http.StatusCode res < 200 ∨ 400 ≤ http.StatusCode res)%Z →
  optimize.body_ops (optimize.Do b req v) = [http.BodyRead; http.BodyClose]
  ∧ optimize.destination (optimize.Do b req v) = v
  ∧ (∀ errRes,
       json_Decode (http.RespBody res) optimize.zero_ErrorResponse = (errRes, None) →
       optimize.returned (optimize.Do b req v) = Some (apiError errRes))
  ∧ (∀ errRes cause,
       json_Decode (http.RespBody res) optimize.zero_ErrorResponse = (errRes, Some cause) →
       ∃ err, optimize.returned (optimize.Do b req v) = Some err
              ∧ Error err = "unknown error, status code: " +:+ format_d (http.StatusCode res)
              ∧ Unwrap err = None
              ∧ ∀ e, err ≠ apiError e).
Proof.
  intros Hdo Hcode. unfold optimize.Do. rewrite Hdo.
  assert ((http.StatusCode res <? http.StatusOK)%Z
          || (http.StatusCode res >=? http.StatusBadRequest)%Z = true) as ->.
  { unfold http.StatusOK, http.StatusBadRequest. apply orb_true_iff.
    destruct Hcode; [left|right]; lia. }
  destruct (json_Decode (http.RespBody res) optimize.zero_ErrorResponse)
    as [errRes [cause|]]; simpl; split_and!; try done.
  - intros errRes' cause' _. eexists. split_and!; [reflexivity..|done].
  - by intros errRes' [= <-].
Qed.

(** C2. For a response whose status code is at least 200 and below 400:
    with a destination, [Do] decodes the body into it, and a failure of the
    decoder is returned wrapped, behind the text
    ["failed to decode response body: "]; without a destination the body
    is closed without having been read and [Do] returns no error, whatever
    the body holds. *)
Theorem Do_success_status {V} {U : Unmarshaler V} b req (v : option V) res :
  http_Client_Do (optimize.httpClient b) req = Ok res →
  (200 ≤ http.StatusCode res < 400)%Z →
  (v = None →
     optimize.Do b req v = optimize.mkOutcome None None [http.BodyClose])
  ∧ (∀ d d',
       v = Some d → json_Decode (http.RespBody res) d = (d', None) →
       optimize.Do b req v
       = optimize.mkOutcome None (Some d') [http.BodyRead; http.BodyClose])
  ∧ (∀ d d' cause,
       v = Some d → json_Decode (http.RespBody res) d = (d', Some cause) →
       ∃ err, optimize.returned (optimize.Do b req v) = Some err
              ∧ Unwrap err = Some cause
              ∧ Error err = "failed to decode response body: " +:+ Error cause
              ∧ optimize.body_ops (optimize.Do b req v) = [http.BodyRead; http.BodyClose]).
Proof.
  intros Hdo Hcode. unfold optimize.Do. rewrite Hdo.
  assert ((http.StatusCode res <? http.StatusOK)%Z
          || (http.StatusCode res >=? http.StatusBadRequest)%Z = false) as ->.
  { unfold http.StatusOK, http.StatusBadRequest. apply orb_false_iff. lia. }
  split_and!.
  - by intros ->.
  - intros d d' -> Hdec. by rewrite Hdec.
  - intros d d' cause -> Hdec. rewrite Hdec. eexists. by split_and!.
Qed.

(** C6. The display string of a decoded [ErrorResponse] is its short
    message alone when the description is empty, and the short message,
    [": "] and the description otherwise; so a response of status 422 whose
    body decodes to the message ["invalid_handle"] with the description
    ["Handle already exists"] makes [Do] fail with the display string
    ["invalid_handle: Handle already exists"]. *)
Theorem ErrorResponse_display (e : ErrorResponse) :
  (ErrorDescription e = "" → Error (apiError e) = ErrorMessage e)
  ∧ (ErrorDescription e ≠ "" →
     Error (apiError e) = ErrorMessage e +:+ ": " +:+ ErrorDescription e)
  ∧ (∀ V (U : Unmarshaler V) b req (v : option V) res,
       http_Client_Do (optimize.httpClient b) req = Ok res →
       http.StatusCode res = 422%Z →
       json_Decode (http.RespBody res) optimize.zero_ErrorResponse = (e, None) →
       ErrorMessage e = "invalid_handle" →
       ErrorDescription e = "Handle already exists" →
       ∃ err, optimize.returned (optimize.Do b req v) = Some err
              ∧ Error err = "invalid_handle: Handle already exists").
Proof.
  simpl. unfold ErrorResponse_Error. split_and!.
  - intros ->. by rewrite bool_decide_false by naive_solver.
  - intros Hne. by rewrite bool_decide_true.
  - intros V U b req v res Hdo Hcode Hdec Hm Hd. exists (apiError e). split.
    + unfold optimize.Do. by rewrite Hdo, Hcode, Hdec.
    + simpl. unfold ErrorResponse_Error. by rewrite Hm, Hd.
Qed.

(** C9 as amended.  The client holds the API key and the HTTP client, set
    by [New] and its options, and no base URL: a builder takes its base
    URL from the package variable [BaseURL] as it is when the builder is
    handed out, for all clients alike; that is
    ["https://api.reepay.com/v1"] until the variable is assigned. *)
Theorem base_URL_is_package_variable g (k : string) (opts : list optimize.Option) ctx :
  request.baseURL (optimize.newBillwerkRequest g (optimize.New k opts) ctx)
  = optimize.BaseURL g
  ∧ optimize.BaseURL optimize.init = "https://api.reepay.com/v1"
  ∧ (∀ s, optimize.BaseURL (optimize.assign_BaseURL s g) = s)
  ∧ optimize.New k []
    = optimize.mkBillwerk k "" (http.mkClient None (10 * time.Second))
  ∧ (∀ client b, optimize.WithHTTPClient client b
                 = optimize.mkBillwerk (optimize.apiKey b) (optimize.apiKeyB64 b) client)
  ∧ (∀ k' opts' ctx',
       request.baseURL (optimize.newBillwerkRequest g (optimize.New k' opts') ctx')
       = request.baseURL (optimize.newBillwerkRequest g (optimize.New k opts) ctx)).
Proof. by split_and!. Qed.

(** [WithQueryParams] is one [AddParam] per value, in order. *)
Lemma WithQueryParams_AddParam {V} {F : optimize.Formatter V} (param : string)
    (values : list V) (rb : request.request) :
  optimize.WithQueryParams param values rb
  = fold_left (λ rb value, request.AddParam param value rb) (optimize.format_v <$> values) rb.
Proof.
  unfold optimize.WithQueryParams. revert rb.
  induction values as [|val values IH]; intros rb; simpl; [done|]. apply IH.
Qed.

End client.

(** ** The code on concrete inputs *)

Example base64_rfc4648 :
  base64.EncodeToString <$> ["" ; "f"; "fo"; "foo"; "foob"; "fooba"; "foobar"]
  = ["" ; "Zg=="; "Zm8="; "Zm9v"; "Zm9vYg=="; "Zm9vYmE="; "Zm9vYmFy"].
Proof. reflexivity. Qed.

Example canonical_keys :
  textproto.CanonicalMIMEHeaderKey
    <$> ["user-agent"; "USER-AGENT"; "accept"; "content-type"; "user agent"; "x-a1-b"]
  = ["User-Agent"; "User-Agent"; "Accept"; "Content-Type"; "user agent"; "X-A1-B"].
Proof. reflexivity. Qed.

Example query_escape_samples :
  url.QueryEscape <$> ["a b"; "a&b=c"; "plan-1_x.~"; "50%/x"]
  = ["a+b"; "a%26b%3Dc"; "plan-1_x.~"; "50%25%2Fx"].
Proof. reflexivity. Qed.

Example encode_sample :
  url.Encode (url.Add (url.Add (url.Set_ (url.Add ∅ "state" "active") "size" "10")
                                "state" "deleted") "from" "a b")
  = "from=a+b&size=10&state=active&state=deleted".
Proof. by vm_compute. Qed.

Example overwrite_sample :
  url.Encode (url.Set_ (url.Set_ (url.Add ∅ "size" "5") "size" "10") "size" "20")
  = "size=20".
Proof. by vm_compute. Qed.

Example basic_auth_sample :
  http.Header_Get
    (request.header (optimize.newBillwerkRequest optimize.init (optimize.New "key" []) sample.ctx0))
    "authorization"
  = "Basic a2V5Og==".
Proof. by vm_compute. Qed.

Example decode_gold :
  optimize.Do (env := sample.env0) (UE := sample.unmarshal_ErrorResponse)
    (U := sample.unmarshal_Named) (sample.client 200 sample.body_gold) sample.request0
    (Some (sample.mkNamed "" ""))
  = optimize.mkOutcome None (Some (sample.mkNamed "gold" "gold-plan"))
      [http.BodyRead; http.BodyClose].
Proof. by vm_compute. Qed.

Example transport_failure :
  optimize.Do (env := sample.env0) (UE := sample.unmarshal_ErrorResponse)
    (U := sample.unmarshal_Named) (optimize.New "key" []) sample.request0
    (Some (sample.mkNamed "" ""))
  = optimize.mkOutcome (Some (errorString "dial tcp: network is unreachable"))
      (Some (sample.mkNamed "" "")) [].
Proof. by vm_compute. Qed.

Example nil_context_fails :
  (request.GET (env := sample.env0) (request.WithBaseURL "https://api.example.com" (request.New None))).2
  = Err (errorString "net/http: nil Context").
Proof. by vm_compute. Qed.


(** ** The statements at concrete inputs *)

(** A 500 response with an HTML body: the error names the status code only. *)
Lemma Do_error_status_witness :
  ∃ err,
    optimize.returned
      (optimize.Do (env := sample.env0) (UE := sample.unmarshal_ErrorResponse)
         (U := sample.unmarshal_Named)
         (sample.client 500 "<html>Internal Server Error</html>") sample.request0 None)
    = Some err
    ∧ Error err = "unknown error, status code: 500"
    ∧ Unwrap err = None.
Proof.
  destruct (Do_error_status (env := sample.env0) (UE := sample.unmarshal_ErrorResponse)
              (U := sample.unmarshal_Named)
              (sample.client 500 "<html>Internal Server Error</html>") sample.request0 None
              (http.mkResponse "" 500 ∅ "<html>Internal Server Error</html>"))
    as (_ & _ & _ & Hunknown).
  - by vm_compute.
  - right. by vm_compute.
  - destruct (Hunknown optimize.zero_ErrorResponse
                (errorString "invalid character looking for beginning of value"))
      as (err & Hret & Herr & Hunwrap & _).
    + by vm_compute.
    + exists err. split_and!; done.
Defined.

(** A 200 response with a body and no destination: no error, nothing read. *)
Lemma Do_success_status_witness :
  optimize.Do (env := sample.env0) (UE := sample.unmarshal_ErrorResponse)
    (U := sample.unmarshal_Named) (sample.client 200 sample.body_gold)
    sample.request0 None
  = optimize.mkOutcome None None [http.BodyClose].
Proof.
  refine (proj1 (Do_success_status (env := sample.env0)
                   (UE := sample.unmarshal_ErrorResponse) (U := sample.unmarshal_Named)
                   (sample.client 200 sample.body_gold) sample.request0 None
                   (http.mkResponse "" 200 ∅ sample.body_gold) _ _) eq_refl);
    by vm_compute.
Defined.

(** Two values added under one key. *)
Lemma AddParam_query_occurrences_witness :
  ∃ r' req,
    request.build (env := sample.env0)
      (request.set_method
         (fold_left (λ rb value, request.AddParam "state" value rb) ["active"; "deleted"]
            (request.WithEndpoint "/plan"
               (optimize.newBillwerkRequest optimize.init (optimize.New "key" [])
                  sample.ctx0)))
         "GET")
    = (r', Ok req)
    ∧ url.RawQuery (http.URL req) = "state=active&state=deleted".
Proof.
  pose proof (AddParam_query_occurrences (env := sample.env0)
                (request.WithEndpoint "/plan"
                   (optimize.newBillwerkRequest optimize.init (optimize.New "key" [])
                      sample.ctx0))
                "state" ["active"; "deleted"] "GET") as Hthm.
  destruct (request.build _) as [r' [req|err]] eqn:Hb.
  - destruct (Hthm r' req eq_refl) as (pairs & _ & _ & _ & Hq).
    exists r', req. split; [done|]. by rewrite Hq.
  - by vm_compute in Hb.
Defined.

(** The credentials of key ["key"] survive endpoint, parameter and body
    configuration. *)
Lemma Authorization_is_basic_of_key_witness :
  http.Header_Get
    (request.header
       (request.chain
          [request.CallWithEndpoint "/plan"; request.CallAddParam "state" "active";
           request.CallWithJSONBody (M := sample.marshal_Payload) (sample.Text "gold")]
          (optimize.newBillwerkRequest optimize.init
             (optimize.New "key"
                [optimize.WithHTTPClient (sample.client_of (sample.respond 200 ""))])
             sample.ctx0)))
    "Authorization"
  = "Basic a2V5Og==".
Proof.
  refine (proj1 (proj2 (Authorization_is_basic_of_key (env := sample.env0) optimize.init "key"
            [optimize.WithHTTPClient (sample.client_of (sample.respond 200 ""))]
            sample.ctx0
            [request.CallWithEndpoint "/plan"; request.CallAddParam "state" "active";
             request.CallWithJSONBody (M := sample.marshal_Payload) (sample.Text "gold")]
            _ _))).
  - repeat constructor.
  - repeat constructor; by vm_compute.
Defined.

(** The body of the 422 example. *)
Lemma ErrorResponse_display_witness :
  ∃ err,
    optimize.returned
      (optimize.Do (env := sample.env0) (UE := sample.unmarshal_ErrorResponse)
         (U := sample.unmarshal_Named) (sample.client 422 sample.body_422)
         sample.request0 None)
    = Some err
    ∧ Error err = "invalid_handle: Handle already exists".
Proof.
  refine (proj2 (proj2 (ErrorResponse_display (env := sample.env0)
            (UE := sample.unmarshal_ErrorResponse)
            (mkErrorResponse 105 "invalid_handle" "Handle already exists" "" 0 "" "" "" "")))
            sample.Named sample.unmarshal_Named (sample.client 422 sample.body_422)
            sample.request0 None (http.mkResponse "" 422 ∅ sample.body_422) _ _ _ _ _);
    by vm_compute.
Defined.

(** A channel cannot be encoded: the body is empty. *)
Lemma WithJSONBody_encode_failure_witness :
  request.body
    (request.WithJSONBody (M := sample.marshal_Payload) sample.Channel
       (request.New sample.ctx0))
  = Some "".
Proof.
  refine (proj1 (proj2 (WithJSONBody_encode_failure (env := sample.env0)
            (M := sample.marshal_Payload) sample.Channel
            (errorString "json: unsupported type: chan int")
            (request.New sample.ctx0) "POST" _))).
  reflexivity.
Defined.

(** A [User-Agent] set by the caller, in lower case, does not reach the
    request. *)
Lemma UserAgent_not_overridable_witness :
  ∃ r' req,
    request.build (env := sample.env0)
      (request.set_method
         (request.WithHeader "user-agent" "curl/8.0"
            (request.WithEndpoint "/plan"
               (optimize.newBillwerkRequest optimize.init (optimize.New "key" [])
                  sample.ctx0)))
         "GET")
    = (r', Ok req)
    ∧ http.Header_Get (http.Header_ req) "User-Agent" = "go-billwerk/0.1.0".
Proof.
  pose proof (UserAgent_not_overridable (env := sample.env0)
                (request.WithHeader "user-agent" "curl/8.0"
                   (request.WithEndpoint "/plan"
                      (optimize.newBillwerkRequest optimize.init (optimize.New "key" [])
                         sample.ctx0)))
                "GET") as Hthm.
  destruct (request.build _) as [r' [req|err]] eqn:Hb.
  - destruct (Hthm r' req eq_refl) as (Hget & _).
    exists r', req. split; [done|]. by rewrite Hget.
  - by vm_compute in Hb.
Defined.

(** Keys given in the order [state], [from], [state]. *)
Lemma query_keys_sorted_witness :
  ∃ r' req pairs,
    request.build (env := sample.env0)
      (request.set_method
         (request.AddParam "state" "deleted"
            (request.AddParam "from" "2024"
               (request.AddParam "state" "active"
                  (request.WithEndpoint "/plan"
                     (optimize.newBillwerkRequest optimize.init (optimize.New "key" [])
                        sample.ctx0)))))
         "GET")
    = (r', Ok req)
    ∧ url.RawQuery (http.URL req) = join "&" (url.render_pair <$> pairs)
    ∧ StronglySorted String.le pairs.*1
    ∧ pairs = [("from", "2024"); ("state", "active"); ("state", "deleted")].
Proof.
  pose proof (query_keys_sorted (env := sample.env0)
                (request.AddParam "state" "deleted"
                   (request.AddParam "from" "2024"
                      (request.AddParam "state" "active"
                         (request.WithEndpoint "/plan"
                            (optimize.newBillwerkRequest optimize.init
                               (optimize.New "key" []) sample.ctx0)))))
                "GET") as Hthm.
  destruct (request.build _) as [r' [req|err]] eqn:Hb.
  - destruct (Hthm r' req eq_refl) as (pairs & Hpairs & Hjoin & Hsorted & _).
    exists r', req, pairs. split_and!; try done.
    vm_compute in Hb. injection Hb as _ <-. vm_compute in Hpairs. congruence.
  - by vm_compute in Hb.
Defined.

(** The gold plan under the documented base URL, with one parameter: the
    path is the concatenation read by [net/http], the query is that of the
    parameter. *)
Lemma build_target_from_concatenation_witness :
  ∃ r' req,
    request.build (env := sample.env0)
      (request.set_method
         (request.WithEndpoint "/plan/gold-plan"
            (request.WithBaseURL "https://api.example.com/v1"
               (request.WithParam "state" "active" (request.New sample.ctx0))))
         "GET")
    = (r', Ok req)
    ∧ url.Scheme (http.URL req) = "https"
    ∧ url.Host (http.URL req) = "api.example.com"
    ∧ url.Path (http.URL req) = "/v1/plan/gold-plan"
    ∧ url.RawQuery (http.URL req) = "state=active"
    ∧ ∃ req0,
        http_NewRequestWithContext (Environment := sample.env0) sample.ctx0 "GET"
          "https://api.example.com/v1/plan/gold-plan" None
        = Ok req0
        ∧ url.Path (http.URL req) = url.Path (http.URL req0)
        ∧ url.RawQuery (http.URL req0) = "".
Proof.
  destruct (request.build (env := sample.env0)
              (request.set_method
                 (request.WithEndpoint "/plan/gold-plan"
                    (request.WithBaseURL "https://api.example.com/v1"
                       (request.WithParam "state" "active" (request.New sample.ctx0))))
                 "GET")) as [r' [req|err]] eqn:Hb.
  - destruct (build_target_from_concatenation (env := sample.env0)
                (request.WithParam "state" "active" (request.New sample.ctx0))
                "https://api.example.com/v1" "/plan/gold-plan" "GET" r' req Hb)
      as (req0 & Hnew & _ & _ & _ & _ & Hpath & _ & _ & _ & _ & _ & _ & _ & _ & Hgold & _).
    exists r', req. split; [reflexivity|].
    vm_compute in Hb. injection Hb as _ <-.
    do 4 (split; [reflexivity|]).
    exists req0. split; [by apply Hgold|]. split; [exact Hpath|].
    vm_compute in Hnew. by injection Hnew as <-.
  - by vm_compute in Hb.
Defined.

(** C3, counterexample.  An endpoint that spells out a query: the request
    for ["/plan?x=1"] is the request for ["/plan"], with path ["/v1/plan"]
    and an empty query, although the two concatenations differ; so nothing
    read off a materialized request is the concatenation of base URL and
    endpoint for every endpoint. *)
Lemma build_target_drops_written_query :
  ∃ r1 r2 req,
    request.build (env := sample.env0)
      (request.set_method
         (request.WithEndpoint "/plan?x=1"
            (request.WithBaseURL "https://api.example.com/v1" (request.New sample.ctx0)))
         "GET")
    = (r1, Ok req)
    ∧ request.build (env := sample.env0)
        (request.set_method
           (request.WithEndpoint "/plan"
              (request.WithBaseURL "https://api.example.com/v1" (request.New sample.ctx0)))
           "GET")
      = (r2, Ok req)
    ∧ request.fullURL r1 = "https://api.example.com/v1/plan?x=1"
    ∧ request.fullURL r2 = "https://api.example.com/v1/plan"
    ∧ url.Scheme (http.URL req) = "https"
    ∧ url.Host (http.URL req) = "api.example.com"
    ∧ url.Path (http.URL req) = "/v1/plan"
    ∧ url.RawQuery (http.URL req) = ""
    ∧ url.ForceQuery (http.URL req) = false
    ∧ url.Fragment (http.URL req) = ""
    ∧ ¬ (∃ target : http.Request → string,
           ∀ e r' req',
             request.build (env := sample.env0)
               (request.set_method
                  (request.WithEndpoint e
                     (request.WithBaseURL "https://api.example.com/v1"
                        (request.New sample.ctx0)))
                  "GET")
             = (r', Ok req') →
             target req' = "https://api.example.com/v1" +:+ e).
Proof.
  eexists _, _, _. split; [by vm_compute|]. split; [by vm_compute|].
  do 8 (split; [reflexivity|]).
  intros [target Htarget].
  pose proof (Htarget "/plan?x=1" _ _ eq_refl) as H1.
  pose proof (Htarget "/plan" _ _ eq_refl) as H2.
  vm_compute in H1, H2. congruence.
Qed.

(** C9, counterexample.  One client hands out two builders, the package
    variable being assigned in between: their base URLs differ, and the
    second is not the one in force when the client was made. *)
Lemma base_URL_follows_package_variable :
  let b := optimize.New "key" [] in
  let g := optimize.assign_BaseURL "http://127.0.0.1:8080" optimize.init in
  request.baseURL (optimize.newBillwerkRequest optimize.init b sample.ctx0)
  = "https://api.reepay.com/v1"
  ∧ request.baseURL (optimize.newBillwerkRequest g b sample.ctx0)
    = "http://127.0.0.1:8080"
  ∧ request.baseURL (optimize.newBillwerkRequest optimize.init b sample.ctx0)
    ≠ request.baseURL (optimize.newBillwerkRequest g b sample.ctx0).
Proof. by split_and!. Qed.

(** * Further properties *)

(** ** The builder, continued *)

Section builder_more.
Context {env : Environment}.
Implicit Types (r : request.request) (req : http.Request) (m key value : string).

(** X1. [WithParam] overwrites: whatever the key held before, the query
    string of the materialized request has exactly one setting for it, the
    value given last; the settings of the other keys are as before. *)
Theorem WithParam_overwrites r key value m r' req :
  request.build (request.set_method (request.WithParam key value r) m) = (r', Ok req) →
  ∃ pairs,
    url.query_pairs (url.RawQuery (http.URL req)) = Some pairs
    ∧ filter (λ p, p.1 = key) pairs = [(key, value)]
    ∧ (∀ k, k ≠ key →
         filter (λ p, p.1 = k) pairs
         = (λ x, (k, x)) <$> url.values_of (request.params r) k).
Proof.
  intros Hb%build_RawQuery. simpl in Hb. rewrite Hb.
  exists (url.encode_pairs (url.Set_ (request.params r) key value)). split_and!.
  - apply query_pairs_Encode.
  - by rewrite encode_pairs_filter, values_of_Set, decide_True.
  - intros k Hk. by rewrite encode_pairs_filter, values_of_Set, decide_False.
Qed.

Lemma lower_canonical key :
  textproto.lower (textproto.CanonicalMIMEHeaderKey key) = textproto.lower key.
Proof.
  unfold textproto.CanonicalMIMEHeaderKey.
  destruct (string_forallb _ key); [apply lower_canonicalize|done].
Qed.

(** X2. Header keys made of token characters are case-insensitive and the
    last write wins: a second [WithHeader] under a key that differs from
    the first in case only leaves the builder as if the first had not been
    made, and the value is read back under any spelling of the key. *)
Theorem WithHeader_last_write_wins r (k1 v1 k2 v2 : string) :
  string_forallb textproto.validHeaderFieldByte k2 = true →
  textproto.lower k1 = textproto.lower k2 →
  request.WithHeader k2 v2 (request.WithHeader k1 v1 r) = request.WithHeader k2 v2 r
  ∧ (∀ k, textproto.lower k = textproto.lower k2 →
       http.Header_Get
         (request.header (request.WithHeader k2 v2 (request.WithHeader k1 v1 r))) k
       = v2).
Proof.
  intros Hvalid Hlow.
  assert (∀ k, textproto.lower k = textproto.lower k2 →
               textproto.CanonicalMIMEHeaderKey k = textproto.CanonicalMIMEHeaderKey k2)
    as Hcan.
  { intros k Hk. apply canonical_fold; [done|]. by rewrite lower_canonical. }
  assert (request.WithHeader k2 v2 (request.WithHeader k1 v1 r)
          = request.WithHeader k2 v2 r) as Heq.
  { unfold request.WithHeader, http.Header_Set. simpl.
    rewrite (Hcan k1 Hlow). by rewrite insert_insert_eq. }
  split; [done|]. intros k Hk. rewrite Heq.
  unfold request.WithHeader, http.Header_Get, http.Header_Set. simpl.
  by rewrite (Hcan k Hk), lookup_insert_eq.
Qed.

(** *** Basic credentials *)

Lemma get_mem_byte (i : nat) (s : string) (c : ascii) :
  String.get i s = Some c → mem_byte c s = true.
Proof.
  unfold mem_byte. revert i. induction s as [|a s IH]; intros i; [done|].
  destruct i as [|i]; simpl.
  - intros [= ->]. by rewrite Ascii.eqb_refl.
  - intros Hget. rewrite (IH i Hget). apply orb_true_r.
Qed.

Lemma enc_alphabet (val shift : N) : base64.in_alphabet (base64.enc val shift) = true.
Proof.
  unfold base64.in_alphabet, base64.enc.
  destruct (String.get _ base64.encodeStd) as [c|] eqn:Hget.
  - by rewrite (get_mem_byte _ _ _ Hget).
  - reflexivity.
Qed.

Lemma EncodeToString_alphabet (src : string) :
  string_forallb base64.in_alphabet (base64.EncodeToString src) = true.
Proof.
  revert src. fix IH 1. intros [|a [|b [|c rest]]]; simpl;
    rewrite ?enc_alphabet; simpl; auto.
Qed.

Lemma EncodeToString_length (src : string) :
  String.length (base64.EncodeToString src) = 4 * ((String.length src + 2) / 3).
Proof.
  revert src. fix IH 1. intros [|a [|b [|c rest]]]; try reflexivity.
  change (String.length (base64.EncodeToString (String a (String b (String c rest)))))
    with (4 + String.length (base64.EncodeToString rest)).
  rewrite IH. change (String.length (String a (String b (String c rest))))
    with (3 + String.length rest).
  replace (3 + String.length rest + 2) with (String.length rest + 2 + 1 * 3) by lia.
  rewrite Nat.div_add by done. lia.
Qed.

(** X3. [WithBasicAuth] stores ["Basic "] and the base64 text of
    [username:password] under [Authorization], in place of whatever was
    there, and touches no other header.  Whatever bytes the credentials
    hold, the text after ["Basic "] is made of characters of the base64
    alphabet and padding only, four for every three bytes begun. *)
Theorem WithBasicAuth_value r (username password : string) :
  let credentials := base64.EncodeToString (username +:+ ":" +:+ password) in
  let r1 := request.WithBasicAuth username password r in
  http.Header_Get (request.header r1) "authorization" = "Basic " +:+ credentials
  ∧ string_forallb base64.in_alphabet credentials = true
  ∧ String.length credentials
    = 4 * ((String.length username + String.length password + 3) / 3)
  ∧ (∀ u p, request.WithBasicAuth username password (request.WithBasicAuth u p r) = r1)
  ∧ (∀ k, k ≠ "Authorization" → request.header r1 !! k = request.header r !! k).
Proof.
  intros credentials r1. destruct canonical_known as (Hauth & _).
  assert (∀ s t, String.length (s +:+ t) = String.length s + String.length t) as Hlen.
  { intros s t. induction s as [|c s IHs]; [done|].
    rewrite string_app_cons. simpl. by rewrite IHs. }
  split_and!.
  - unfold http.Header_Get. subst r1. unfold request.WithBasicAuth.
    rewrite header_WithHeader.
    change (textproto.CanonicalMIMEHeaderKey "authorization")
      with (textproto.CanonicalMIMEHeaderKey "Authorization").
    by rewrite lookup_insert_eq.
  - apply EncodeToString_alphabet.
  - subst credentials. rewrite EncodeToString_length, !Hlen. simpl String.length.
    f_equal. f_equal. lia.
  - intros u p. subst r1. unfold request.WithBasicAuth, request.WithHeader,
      http.Header_Set. simpl. by rewrite insert_insert_eq.
  - intros k Hk. subst r1. unfold request.WithBasicAuth.
    rewrite header_WithHeader, Hauth. by rewrite lookup_insert_ne.
Qed.

(** X4. When the value has a JSON encoding, [WithJSONBody] makes the body
    that encoding followed by a newline and sets the JSON content type,
    leaving the other headers, the parameters and the target alone; a
    [WithBody] after it replaces the body and keeps the JSON content
    type. *)
Theorem WithJSONBody_encoded {V} {M : Marshaler V} (v : V) (data : string) r :
  json_Marshal v = Ok data →
  let r1 := request.WithJSONBody v r in
  request.body r1 = Some (data +:+ String "010" EmptyString)
  ∧ http.Header_Get (request.header r1) "Content-Type" = "application/json; charset=utf-8"
  ∧ (∀ k, k ≠ "Content-Type" → request.header r1 !! k = request.header r !! k)
  ∧ request.params r1 = request.params r
  ∧ request.fullURL r1 = request.fullURL r
  ∧ (∀ body',
       request.body (request.WithBody body' r1) = body'
       ∧ http.Header_Get (request.header (request.WithBody body' r1)) "Content-Type"
         = "application/json; charset=utf-8").
Proof.
  intros Hdata r1. destruct canonical_known as (_ & Hct & _).
  assert (r1 = request.set_body (request.WithContentTypeJSON r)
                 (Some (data +:+ String "010" EmptyString))) as ->.
  { subst r1. unfold request.WithJSONBody, json_Encode. by rewrite Hdata. }
  assert (∀ b', http.Header_Get
            (request.header (request.set_body (request.WithContentTypeJSON r) b'))
            "Content-Type" = "application/json; charset=utf-8") as Hget.
  { intros b'. unfold http.Header_Get. simpl. unfold http.Header_Set.
    by rewrite lookup_insert_eq. }
  split_and!.
  - reflexivity.
  - apply Hget.
  - intros k Hk. simpl. unfold http.Header_Set. rewrite Hct. by rewrite lookup_insert_ne.
  - reflexivity.
  - reflexivity.
  - intros body'. split; [reflexivity|apply Hget].
Qed.

(** X5. A terminal method can be repeated: the state it leaves the builder
    in gives the same result again, be it a request or an error.  After an
    error the builder is as before the call, without the [User-Agent]. *)
Theorem build_repeatable r m r' (res : result http.Request) :
  request.build (request.set_method r m) = (r', res) →
  request.build r' = (r', res)
  ∧ request.build (request.set_method r' m) = (r', res)
  ∧ (∀ err, res = Err err → r' = request.set_method r m).
Proof.
  unfold request.build, request.fullURL. simpl.
  destruct (http_NewRequestWithContext (request.ctx r) m _ (request.body r))
    as [req0|err] eqn:Hnew; intros [= <- <-]; simpl; rewrite Hnew.
  - unfold http.Header_Set. rewrite insert_insert_eq. by split_and!.
  - by split_and!.
Qed.

(** *** The query string, continued *)

Lemma string_forallb_join p sep (l : list string) :
  string_forallb p sep = true →
  Forall (λ s, string_forallb p s = true) l →
  string_forallb p (join sep l) = true.
Proof.
  intros Hsep. induction l as [|s [|t l] IH]; intros Hl; [done|..].
  - by inversion Hl.
  - rewrite join_cons_cons, !string_forallb_app. inversion_clear Hl as [|?? Hs Hl'].
    by rewrite Hs, Hsep, IH.
Qed.

Lemma escape_byte_query_byte c : string_forallb url.query_byte (url.escape_byte c) = true.
Proof. destruct c as [[] [] [] [] [] [] [] []]; reflexivity. Qed.

Lemma QueryEscape_query_byte s : string_forallb url.query_byte (url.QueryEscape s) = true.
Proof.
  induction s as [|c s IH]; [done|].
  simpl url.QueryEscape. by rewrite string_forallb_app, escape_byte_query_byte, IH.
Qed.

Lemma no_byte_forallb p sep s :
  p sep = false → string_forallb p s = true → url.no_byte sep s = true.
Proof.
  intros Hsep. unfold url.no_byte. induction s as [|c s IH]; [done|]. simpl.
  intros [Hc Hs]%andb_prop. rewrite (IH Hs).
  destruct (Ascii.eqb_spec c sep) as [->|]; [congruence|done].
Qed.

(** X6. Whatever bytes the keys and values of the parameters hold, the
    query string of the materialized request is made of unreserved
    characters and of [%], [+], [=] and [&] only, and it reads back without
    an error: no space, control byte, [#] or [?] reaches it. *)
Theorem query_string_is_escaped r m r' req :
  request.build (request.set_method r m) = (r', Ok req) →
  string_forallb url.query_byte (url.RawQuery (http.URL req)) = true
  ∧ is_Some (url.query_pairs (url.RawQuery (http.URL req)))
  ∧ url.no_byte " " (url.RawQuery (http.URL req)) = true
  ∧ url.no_byte "#" (url.RawQuery (http.URL req)) = true
  ∧ url.no_byte "?" (url.RawQuery (http.URL req)) = true.
Proof.
  intros Hb%build_RawQuery. simpl in Hb. rewrite Hb.
  assert (string_forallb url.query_byte (url.Encode (request.params r)) = true) as Hq.
  { rewrite Encode_join. apply string_forallb_join; [done|].
    apply Forall_fmap, Forall_true. intros p. unfold url.render_pair. simpl.
    by rewrite !string_forallb_app, !QueryEscape_query_byte. }
  assert (∀ sep, url.query_byte sep = false →
                 url.no_byte sep (url.Encode (request.params r)) = true) as Hno.
  { intros sep Hsep. by apply (no_byte_forallb url.query_byte). }
  split_and!; [done| |by apply Hno..].
  rewrite query_pairs_Encode. by eexists.
Qed.

Lemma no_empty_Set (v : url.Values) key value :
  url.no_empty v → url.no_empty (url.Set_ v key value).
Proof.
  intros Hv k. unfold url.Set_. rewrite lookup_insert.
  case_decide; [done|apply Hv].
Qed.

Lemma no_empty_Add (v : url.Values) key value :
  url.no_empty v → url.no_empty (url.Add v key value).
Proof.
  intros Hv k. unfold url.Add. rewrite lookup_insert.
  case_decide; [|apply Hv]. intros [= Heq]. by destruct (url.values_of v key).
Qed.

Lemma no_empty_chain (calls : list request.Call) r :
  url.no_empty (request.params r) →
  url.no_empty (request.params (request.chain calls r)).
Proof.
  unfold request.chain. revert r.
  induction calls as [|c calls IH]; intros r Hr; [done|].
  simpl. apply IH. destruct c; simpl; try done.
  - by apply no_empty_Set.
  - by apply no_empty_Add.
  - unfold request.WithJSONBody. by destruct (json_Encode _ _).
Qed.

Lemma values_of_nil (v : url.Values) k :
  url.no_empty v → url.values_of v k = [] → v !! k = None.
Proof.
  intros Hv. unfold url.values_of. specialize (Hv k).
  destruct (v !! k) as [[|x l]|]; naive_solver.
Qed.

Lemma Encode_inj (v1 v2 : url.Values) :
  url.no_empty v1 → url.no_empty v2 → url.Encode v1 = url.Encode v2 → v1 = v2.
Proof.
  intros H1 H2 Heq.
  assert (url.encode_pairs v1 = url.encode_pairs v2) as Hpairs.
  { apply (inj Some). by rewrite <- !query_pairs_Encode, Heq. }
  assert (∀ k, url.values_of v1 k = url.values_of v2 k) as Hvals.
  { intros k.
    assert (((λ x, (k, x)) <$> url.values_of v1 k).*2
            = ((λ x, (k, x)) <$> url.values_of v2 k).*2) as Hsnd
      by by rewrite <- !encode_pairs_filter, Hpairs.
    rewrite <- !list_fmap_compose in Hsnd. by rewrite !list_fmap_id in Hsnd. }
  apply map_eq. intros k. specialize (Hvals k).
  destruct (v1 !! k) as [l1|] eqn:Hl1.
  - destruct (v2 !! k) as [l2|] eqn:Hl2.
    + unfold url.values_of in Hvals. rewrite Hl1, Hl2 in Hvals. simpl in Hvals.
      congruence.
    + unfold url.values_of in Hvals. rewrite Hl1, Hl2 in Hvals. simpl in Hvals.
      subst l1. by destruct (H1 k).
  - symmetry. apply values_of_nil; [done|]. rewrite <- Hvals.
    unfold url.values_of. by rewrite Hl1.
Qed.

(** X7. The query string determines the parameters: two builders
    configured by calls whose requests have the same query string hold the
    same parameters, key by key and value by value in order. *)
Theorem query_determines_params ctx1 (calls1 : list request.Call) ctx2
    (calls2 : list request.Call) m1 m2 r1' r2' req1 req2 :
  request.build (request.set_method (request.chain calls1 (request.New ctx1)) m1)
  = (r1', Ok req1) →
  request.build (request.set_method (request.chain calls2 (request.New ctx2)) m2)
  = (r2', Ok req2) →
  url.RawQuery (http.URL req1) = url.RawQuery (http.URL req2) →
  request.params (request.chain calls1 (request.New ctx1))
  = request.params (request.chain calls2 (request.New ctx2)).
Proof.
  intros Hb1%build_RawQuery Hb2%build_RawQuery Heq. simpl in Hb1, Hb2.
  rewrite Hb1, Hb2 in Heq.
  apply Encode_inj; [apply no_empty_chain|apply no_empty_chain|done];
    intros k; simpl; by rewrite lookup_empty.
Qed.

(** X8. The request made from a builder of [newBillwerkRequest] that was
    configured by calls writing no header carries three headers and no
    other: [Accept] with the JSON media type, [Authorization] with the
    Basic credentials of the API key, and the [User-Agent] of the library. *)
Theorem request_headers g (b : optimize.Billwerk) ctx (calls : list request.Call) m r' req :
  Forall (λ c, request.header_written c = None) calls →
  request.build
    (request.set_method (request.chain calls (optimize.newBillwerkRequest g b ctx)) m)
  = (r', Ok req) →
  http.Header_ req
  = <["User-Agent" := [request.UserAgent]]>
      (<["Accept" := ["application/json; charset=utf-8"]]>
         (<["Authorization" :=
              ["Basic " +:+ base64.EncodeToString (optimize.apiKey b +:+ ":")]]> ∅))
  ∧ dom (http.Header_ req) = ({["User-Agent"; "Accept"; "Authorization"]} : gset string).
Proof.
  intros Hcalls Hb%build_Header. simpl in Hb.
  destruct canonical_known as (Hauth & _ & Hua & Hacc).
  assert (request.header (request.chain calls (optimize.newBillwerkRequest g b ctx))
          = request.header (optimize.newBillwerkRequest g b ctx)) as Hh.
  { apply map_eq. intros k. apply header_chain.
    eapply Forall_impl; [exact Hcalls|]. intros c Hc. simpl in Hc. by rewrite Hc. }
  assert (http.Header_ req
          = <["User-Agent" := [request.UserAgent]]>
              (<["Accept" := ["application/json; charset=utf-8"]]>
                 (<["Authorization" :=
                      ["Basic " +:+ base64.EncodeToString (optimize.apiKey b +:+ ":")]]> ∅)))
    as Hreq.
  { rewrite Hb, Hh. unfold optimize.newBillwerkRequest, request.WithBasicAuth.
    unfold http.Header_Set. rewrite !header_WithHeader. by rewrite Hua, Hacc, Hauth. }
  split; [done|]. rewrite Hreq, !dom_insert_L, dom_empty_L. set_solver.
Qed.

End builder_more.

(** ** [optimize/query.go] *)

Section query.
Context {V : Type} {F : optimize.Formatter V}.
Implicit Types (rb : request.request) (param : string).

Lemma params_WithQueryParams param (values : list V) rb k :
  url.values_of (request.params (optimize.WithQueryParams param values rb)) k
  = if decide (param = k)
    then url.values_of (request.params rb) k ++ (optimize.format_v <$> values)
    else url.values_of (request.params rb) k.
Proof.
  rewrite WithQueryParams_AddParam. case_decide as Hk.
  - subst k. apply params_AddParams.
  - by apply params_AddParams_ne.
Qed.

Lemma lookup_AddParams (k : string) (vs : list string) rb :
  request.params (fold_left (λ rb value, request.AddParam k value rb) vs rb) !! k
  = if decide (vs = []) then request.params rb !! k
    else Some (url.values_of (request.params rb) k ++ vs).
Proof.
  revert rb. induction vs as [|x vs IH]; intros rb; [done|].
  simpl fold_left. rewrite IH. rewrite (decide_False (P := x :: vs = [])) by done.
  unfold request.AddParam. simpl.
  rewrite values_of_Add, (decide_True (P := k = k)) by done.
  case_decide as Hvs.
  - subst vs. unfold url.Add. by rewrite lookup_insert, decide_True.
  - by rewrite <- (assoc_L (++)).
Qed.

Lemma lookup_AddParams_ne (k k' : string) (vs : list string) rb :
  k ≠ k' →
  request.params (fold_left (λ rb value, request.AddParam k value rb) vs rb) !! k'
  = request.params rb !! k'.
Proof.
  intros Hne. revert rb. induction vs as [|x vs IH]; intros rb; [done|].
  simpl fold_left. rewrite IH. unfold request.AddParam. simpl. unfold url.Add.
  by rewrite lookup_insert_ne.
Qed.

Lemma AddParams_params_only (k : string) (vs : list string) rb :
  fold_left (λ rb value, request.AddParam k value rb) vs rb
  = request.set_params rb
      (request.params (fold_left (λ rb value, request.AddParam k value rb) vs rb)).
Proof.
  revert rb. induction vs as [|x vs IH]; intros rb; [by destruct rb|].
  simpl fold_left. rewrite IH at 1. reflexivity.
Qed.

(** X9. [WithQueryParams] adds its values, formatted, behind those the
    parameter already has, in the order given, whatever these are and none
    included, and with no values it leaves the builder as it is, without
    even a key for the parameter; [WithQueryParam] leaves the parameter
    with its one value, whatever was added before.  Neither touches another
    parameter or anything of the builder but its parameters. *)
Theorem query_param_funcs_compose param (value : V) (values : list V) rb :
  url.values_of (request.params (optimize.WithQueryParams param values rb)) param
  = url.values_of (request.params rb) param ++ (optimize.format_v <$> values)
  ∧ (request.params rb !! param = None →
     request.params (optimize.WithQueryParams param values rb) !! param
     = if decide (values = []) then None else Some (optimize.format_v <$> values))
  ∧ url.values_of (request.params (optimize.WithQueryParam param value rb)) param
    = [optimize.format_v value]
  ∧ url.values_of
      (request.params
         (optimize.WithQueryParams param values (optimize.WithQueryParam param value rb)))
      param
    = optimize.format_v value :: (optimize.format_v <$> values)
  ∧ url.values_of
      (request.params
         (optimize.WithQueryParam param value (optimize.WithQueryParams param values rb)))
      param
    = [optimize.format_v value]
  ∧ optimize.WithQueryParams param [] rb = rb
  ∧ (∀ k, k ≠ param →
       request.params (optimize.WithQueryParams param values rb) !! k
       = request.params rb !! k
       ∧ request.params (optimize.WithQueryParam param value rb) !! k
         = request.params rb !! k)
  ∧ optimize.WithQueryParams param values rb
    = request.set_params rb (request.params (optimize.WithQueryParams param values rb))
  ∧ optimize.WithQueryParam param value rb
    = request.set_params rb (request.params (optimize.WithQueryParam param value rb)).
Proof.
  assert (∀ rb', url.values_of
                   (request.params (optimize.WithQueryParam param value rb')) param
                 = [optimize.format_v value]) as Hset.
  { intros rb'. unfold optimize.WithQueryParam, request.WithParam. simpl.
    by rewrite values_of_Set, decide_True. }
  split; [by rewrite params_WithQueryParams, decide_True|].
  split.
  { intros Hnone. rewrite WithQueryParams_AddParam, lookup_AddParams.
    unfold url.values_of. rewrite Hnone. simpl.
    destruct values; simpl; by repeat case_decide. }
  split; [apply Hset|].
  split; [by rewrite params_WithQueryParams, decide_True, Hset|].
  split; [apply Hset|].
  split; [reflexivity|].
  split.
  { intros k Hk. split.
    - rewrite WithQueryParams_AddParam. by apply lookup_AddParams_ne.
    - unfold optimize.WithQueryParam, request.WithParam. simpl. unfold url.Set_.
      by rewrite lookup_insert_ne. }
  split.
  - rewrite WithQueryParams_AddParam. apply AddParams_params_only.
  - reflexivity.
Qed.

End query.

(** ** The client, continued *)

Section client_more.
Context {env : Environment} {UE : Unmarshaler ErrorResponse}.
Implicit Types (b : optimize.Billwerk) (g : optimize.Vars) (req : http.Request)
  (res : http.Response).

Lemma status_check_true res :
  (http.StatusCode res < 200 ∨ 400 ≤ http.StatusCode res)%Z →
  (http.StatusCode res <? http.StatusOK)%Z
  || (http.StatusCode res >=? http.StatusBadRequest)%Z = true.
Proof.
  unfold http.StatusOK, http.StatusBadRequest. intros Hcode.
  apply orb_true_iff. destruct Hcode; [left|right]; lia.
Qed.

Lemma status_check_false res :
  (200 ≤ http.StatusCode res < 400)%Z →
  (http.StatusCode res <? http.StatusOK)%Z
  || (http.StatusCode res >=? http.StatusBadRequest)%Z = false.
Proof.
  unfold http.StatusOK, http.StatusBadRequest. intros Hcode.
  apply orb_false_iff. lia.
Qed.

Lemma status_cases res :
  (200 ≤ http.StatusCode res < 400)%Z
  ∨ (http.StatusCode res < 200 ∨ 400 ≤ http.StatusCode res)%Z.
Proof. lia. Qed.

(** X10. [Do] returns no error exactly when the transport delivered a
    response, its status code is at least 200 and below 400, and either
    there is no destination or the body decoded into it without an error. *)
Theorem Do_returns_nil_iff {V} {U : Unmarshaler V} b req (v : option V) :
  optimize.returned (optimize.Do b req v) = None
  ↔ ∃ res,
      http_Client_Do (optimize.httpClient b) req = Ok res
      ∧ (200 ≤ http.StatusCode res < 400)%Z
      ∧ (v = None ∨ ∃ d, v = Some d ∧ (json_Decode (http.RespBody res) d).2 = None).
Proof.
  unfold optimize.Do.
  destruct (http_Client_Do (optimize.httpClient b) req) as [res|err]; simpl.
  2:{ split; [done|]. by intros (res & [=] & _). }
  destruct (status_cases res) as [Hcode|Hcode].
  - rewrite (status_check_false res Hcode). destruct v as [d|].
    + destruct (json_Decode (http.RespBody res) d) as [d' [cause|]] eqn:Hdec; simpl.
      * split; [done|]. intros (res' & [= <-] & _ & [[=]|(d0 & [= <-] & Hnone)]).
        by rewrite Hdec in Hnone.
      * split; [|done]. intros _. exists res. split; [done|]. split; [exact Hcode|].
        right. exists d. by rewrite Hdec.
    + simpl. split; [|done]. intros _. exists res. split; [done|].
      split; [exact Hcode|by left].
  - rewrite (status_check_true res Hcode).
    destruct (json_Decode (http.RespBody res) optimize.zero_ErrorResponse)
      as [errRes [cause|]]; simpl; (split; [done|]);
      intros (res' & [= <-] & Hcode' & _); lia.
Qed.

(** X11. A call of [Do] that got no response does nothing to a body,
    returns the error of the transport itself and leaves the destination
    alone.  A call that got a response closes the body exactly once, as the
    last operation, after at most one read; the body is left unread only
    for a status code from 200 to 399 with no destination. *)
Theorem Do_body_discipline {V} {U : Unmarshaler V} b req (v : option V) :
  (∀ err,
     http_Client_Do (optimize.httpClient b) req = Err err →
     optimize.Do b req v = optimize.mkOutcome (Some err) v [])
  ∧ (∀ res,
       http_Client_Do (optimize.httpClient b) req = Ok res →
       ∃ reads,
         optimize.body_ops (optimize.Do b req v) = reads ++ [http.BodyClose]
         ∧ (reads = [] ∨ reads = [http.BodyRead])
         ∧ (reads = [] ↔ (200 ≤ http.StatusCode res < 400)%Z ∧ v = None)).
Proof.
  unfold optimize.Do. split.
  - by intros err ->.
  - intros res ->. destruct (status_cases res) as [Hcode|Hcode].
    + rewrite (status_check_false res Hcode). destruct v as [d|].
      * exists [http.BodyRead].
        destruct (json_Decode (http.RespBody res) d) as [d' [cause|]]; simpl;
          (split; [reflexivity|]; split; [by right|]; split; [done|by intros [_ [=]]]).
      * exists []. simpl. split; [reflexivity|]. split; [by left|]. done.
    + rewrite (status_check_true res Hcode). exists [http.BodyRead].
      destruct (json_Decode (http.RespBody res) optimize.zero_ErrorResponse)
        as [errRes [cause|]]; simpl;
        (split; [reflexivity|]; split; [by right|]; split; [done|intros [Hcode' _]; lia]).
Qed.

(** X12. [New] applies its options from left to right: the client made
    with a list of [WithHTTPClient] options uses the HTTP client of the
    last one, and with none the default client with a timeout of ten
    seconds; the API key is the one given, and an option added at the end
    of any list of options acts on the client the list gives. *)
Theorem New_applies_options_in_order (k : string) (clients : list http.Client)
    (opts : list optimize.Option) (opt : optimize.Option) :
  optimize.httpClient (optimize.New k (optimize.WithHTTPClient <$> clients))
  = default (http.mkClient None 10000000000) (last clients)
  ∧ optimize.apiKey (optimize.New k (optimize.WithHTTPClient <$> clients)) = k
  ∧ optimize.New k (opts ++ [opt]) = opt (optimize.New k opts).
Proof.
  assert (∀ cs b, optimize.httpClient
                    (fold_left (λ b opt, opt b) (optimize.WithHTTPClient <$> cs) b)
                  = default (optimize.httpClient b) (last cs)) as Hfold.
  { induction cs as [|c cs IH]; intros b; [done|].
    rewrite fmap_cons. simpl fold_left. rewrite IH, last_cons.
    by destruct (last cs). }
  split_and!.
  - unfold optimize.New. by rewrite Hfold.
  - apply New_apiKey, Forall_fmap, Forall_true. by intros c b.
  - unfold optimize.New. by rewrite fold_left_app.
Qed.

(** ** [optimize/plan.go] *)

Lemma build_Err r r' (err : error) :
  request.build r = (r', Err err) → optimize.construction_error err.
Proof.
  unfold request.build. destruct (http_NewRequestWithContext _ _ _ _) eqn:Hnew; [done|].
  intros [= _ <-]. by eexists _, _, _, _.
Qed.

Lemma Do_api_error {V} {U : Unmarshaler V} b req (v : option V) res (e : ErrorResponse) :
  http_Client_Do (optimize.httpClient b) req = Ok res →
  (http.StatusCode res < 200 ∨ 400 ≤ http.StatusCode res)%Z →
  json_Decode (http.RespBody res) optimize.zero_ErrorResponse = (e, None) →
  optimize.returned (optimize.Do b req v) = Some (apiError e).
Proof.
  intros Hdo Hcode Hdec. unfold optimize.Do.
  by rewrite Hdo, (status_check_true res Hcode), Hdec.
Qed.

Lemma Do_decoded {V} {U : Unmarshaler V} b req (d d' : V) res :
  http_Client_Do (optimize.httpClient b) req = Ok res →
  (200 ≤ http.StatusCode res < 400)%Z →
  json_Decode (http.RespBody res) d = (d', None) →
  optimize.Do b req (Some d) = optimize.mkOutcome None (Some d') [http.BodyRead; http.BodyClose].
Proof.
  intros Hdo Hcode Hdec. unfold optimize.Do.
  by rewrite Hdo, (status_check_false res Hcode), Hdec.
Qed.

Lemma Do_decode_failed {V} {U : Unmarshaler V} b req (d d' : V) res cause :
  http_Client_Do (optimize.httpClient b) req = Ok res →
  (200 ≤ http.StatusCode res < 400)%Z →
  json_Decode (http.RespBody res) d = (d', Some cause) →
  optimize.returned (optimize.Do b req (Some d))
  = Some (Errorf_w "failed to decode response body: " cause).
Proof.
  intros Hdo Hcode Hdec. unfold optimize.Do.
  by rewrite Hdo, (status_check_false res Hcode), Hdec.
Qed.

Lemma Do_transport_error {V} {U : Unmarshaler V} b req (v : option V) err :
  http_Client_Do (optimize.httpClient b) req = Err err →
  optimize.returned (optimize.Do b req v) = Some err.
Proof. intros Hdo. unfold optimize.Do. by rewrite Hdo. Qed.

Lemma ctx_params (params : list optimize.QueryParamFunc) rb :
  Forall (λ p, ∀ rb, request.ctx (p rb) = request.ctx rb) params →
  request.ctx (fold_left (λ rb param, param rb) params rb) = request.ctx rb.
Proof.
  intros Hall. revert rb. induction Hall as [|p params Hp Hall IH]; intros rb; [done|].
  simpl. by rewrite IH, Hp.
Qed.

End client_more.

Section plan_more.
Context {env : Environment} {UE : Unmarshaler ErrorResponse}.
Context {Plan PlanSupersede ListOfPlansResponse PlanEntitlement : Type}.
Context {ZP : optimize.Zero Plan} {UP : Unmarshaler Plan}.
Context {ZL : optimize.Zero ListOfPlansResponse} {UL : Unmarshaler ListOfPlansResponse}.
Context {UPs : Unmarshaler (list (option Plan))}.
Context {UEs : Unmarshaler (list (option PlanEntitlement))}.
Context {MP : Marshaler (option Plan)} {MS : Marshaler (option PlanSupersede)}.
Implicit Types (b : optimize.Billwerk) (g : optimize.Vars) (handle : string)
  (plan : option Plan) (splan : option PlanSupersede)
  (params : list optimize.QueryParamFunc).

(** The methods, unfolded up to the terminal call. *)
Ltac unfold_method :=
  unfold optimize.GetListOfPlans, optimize.GetPlan, optimize.GetListOfPlanVersions,
    optimize.CreatePlan, optimize.SupersedePlan, optimize.UpdatePlan, optimize.DeletePlan,
    optimize.UndeletePlan, optimize.GetPlanEntitlements, optimize.DeletePlanMetadata;
  unfold request.GET, request.POST, request.PUT, request.DELETE.

(** X13. When [net/http] refuses to make a request for the context at
    hand, as it does for a nil context, every resource method returns that
    error, whatever the transport would have answered, and [GetPlan]
    writes nothing. *)
Theorem construction_failure_is_returned g b ctx (err : error) handle (version : Z)
    plan splan params :
  (∀ method target body,
     method ∈ ["GET"; "POST"; "PUT"; "DELETE"] →
     http_NewRequestWithContext ctx method target body = Err err) →
  Forall (λ p, ∀ rb, request.ctx (p rb) = request.ctx rb) params →
  optimize.GetListOfPlans (ListOfPlansResponse := ListOfPlansResponse) g b ctx params = Err err
  ∧ optimize.GetPlan (Plan := Plan) g b ctx handle params = (Err err, "")
  ∧ optimize.GetListOfPlanVersions (Plan := Plan) g b ctx handle params = Err err
  ∧ optimize.CreatePlan (Plan := Plan) g b ctx plan = Err err
  ∧ optimize.SupersedePlan (Plan := Plan) g b ctx handle splan = Err err
  ∧ optimize.UpdatePlan (Plan := Plan) g b ctx handle plan = Err err
  ∧ optimize.DeletePlan (Plan := Plan) g b ctx handle = Err err
  ∧ optimize.UndeletePlan (Plan := Plan) g b ctx handle = Err err
  ∧ optimize.GetPlanEntitlements (PlanEntitlement := PlanEntitlement) g b ctx handle version = Err err
  ∧ optimize.DeletePlanMetadata g b ctx handle = Some err.
Proof.
  intros Hnew Hparams.
  assert (∀ rb m, request.ctx rb = ctx → m ∈ ["GET"; "POST"; "PUT"; "DELETE"] →
                  (request.build (request.set_method rb m)).2 = Err err) as Hbuild.
  { intros rb m Hctx Hm. unfold request.build. simpl. rewrite Hctx.
    by rewrite (Hnew m _ _ Hm). }
  assert (∀ T (rb : request.request) m (k : http.Request → T) (z : error → T),
            request.ctx rb = ctx → m ∈ ["GET"; "POST"; "PUT"; "DELETE"] →
            match request.build (request.set_method rb m) with
            | (_, Err e) => z e
            | (_, Ok req) => k req
            end = z err) as Hmatch.
  { intros T rb m k z Hctx Hm. specialize (Hbuild rb m Hctx Hm).
    by destruct (request.build _) as [rb' [req|e]]; simpl in Hbuild; simplify_eq. }
  assert (∀ V (M : Marshaler V) (v : V) e,
            request.ctx (request.WithJSONBody v
              (request.WithEndpoint e (optimize.newBillwerkRequest g b ctx))) = ctx)
    as Hjson.
  { intros V M v e. unfold request.WithJSONBody. by destruct (json_Encode _ _). }
  unfold_method.
  split_and!; rewrite Hmatch; try done; try set_solver;
    try (by rewrite ctx_params); apply Hjson.
Qed.

Lemma after_build {T} (rb : request.request) (m : string) (k : http.Request → T)
    (z : error → T) (P : T → Prop) :
  (∀ req, P (k req)) →
  (∀ e, optimize.construction_error e → P (z e)) →
  P (match request.build (request.set_method rb m) with
     | (_, Err e) => z e
     | (_, Ok req) => k req
     end).
Proof.
  intros Hk Hz. destruct (request.build _) as [rb' [req|e]] eqn:Hb; [apply Hk|].
  apply Hz. by eapply build_Err.
Qed.

(** X14. Against a server that answers with a status code below 200 or at
    least 400 and a body that decodes as an [ErrorResponse], every resource
    method returns that [ErrorResponse] as its error, not wrapped, unless
    the request could not be made; [GetPlan] also writes its display string
    and a newline to the standard output. *)
Theorem api_error_is_returned g b ctx res (e : ErrorResponse) handle (version : Z)
    plan splan params :
  (∀ req, http_Client_Do (optimize.httpClient b) req = Ok res) →
  (http.StatusCode res < 200 ∨ 400 ≤ http.StatusCode res)%Z →
  json_Decode (http.RespBody res) optimize.zero_ErrorResponse = (e, None) →
  optimize.fails_with (apiError e) (optimize.GetListOfPlans (ListOfPlansResponse := ListOfPlansResponse) g b ctx params)
  ∧ (optimize.GetPlan (Plan := Plan) g b ctx handle params
     = (Err (apiError e), ErrorResponse_Error e +:+ String "010" EmptyString)
     ∨ ∃ err, optimize.construction_error err
              ∧ optimize.GetPlan (Plan := Plan) g b ctx handle params = (Err err, ""))
  ∧ optimize.fails_with (apiError e) (optimize.GetListOfPlanVersions (Plan := Plan) g b ctx handle params)
  ∧ optimize.fails_with (apiError e) (optimize.CreatePlan (Plan := Plan) g b ctx plan)
  ∧ optimize.fails_with (apiError e) (optimize.SupersedePlan (Plan := Plan) g b ctx handle splan)
  ∧ optimize.fails_with (apiError e) (optimize.UpdatePlan (Plan := Plan) g b ctx handle plan)
  ∧ optimize.fails_with (apiError e) (optimize.DeletePlan (Plan := Plan) g b ctx handle)
  ∧ optimize.fails_with (apiError e) (optimize.UndeletePlan (Plan := Plan) g b ctx handle)
  ∧ optimize.fails_with (apiError e) (optimize.GetPlanEntitlements (PlanEntitlement := PlanEntitlement) g b ctx handle version)
  ∧ (optimize.DeletePlanMetadata g b ctx handle = Some (apiError e)
     ∨ ∃ err, optimize.construction_error err
              ∧ optimize.DeletePlanMetadata g b ctx handle = Some err).
Proof.
  intros Hdo Hcode Hdec.
  assert (∀ V (U : Unmarshaler V) req (v : option V),
            optimize.returned (optimize.Do b req v) = Some (apiError e)) as Hret.
  { intros V U req v. by eapply Do_api_error. }
  unfold_method. unfold optimize.fails_with.
  split_and!; apply after_build; intros; rewrite ?Hret; eauto.
Qed.

(** X15. When the transport fails, every resource method returns the error
    of the transport itself, unless the request could not be made;
    [GetPlan] also writes the text of the error and a newline to the
    standard output, which no other method does. *)
Theorem transport_error_is_returned g b ctx (terr : error) handle (version : Z)
    plan splan params :
  (∀ req, http_Client_Do (optimize.httpClient b) req = Err terr) →
  optimize.fails_with terr (optimize.GetListOfPlans (ListOfPlansResponse := ListOfPlansResponse) g b ctx params)
  ∧ (optimize.GetPlan (Plan := Plan) g b ctx handle params
     = (Err terr, Error terr +:+ String "010" EmptyString)
     ∨ ∃ err, optimize.construction_error err
              ∧ optimize.GetPlan (Plan := Plan) g b ctx handle params = (Err err, ""))
  ∧ optimize.fails_with terr (optimize.GetListOfPlanVersions (Plan := Plan) g b ctx handle params)
  ∧ optimize.fails_with terr (optimize.CreatePlan (Plan := Plan) g b ctx plan)
  ∧ optimize.fails_with terr (optimize.SupersedePlan (Plan := Plan) g b ctx handle splan)
  ∧ optimize.fails_with terr (optimize.UpdatePlan (Plan := Plan) g b ctx handle plan)
  ∧ optimize.fails_with terr (optimize.DeletePlan (Plan := Plan) g b ctx handle)
  ∧ optimize.fails_with terr (optimize.UndeletePlan (Plan := Plan) g b ctx handle)
  ∧ optimize.fails_with terr (optimize.GetPlanEntitlements (PlanEntitlement := PlanEntitlement) g b ctx handle version)
  ∧ (optimize.DeletePlanMetadata g b ctx handle = Some terr
     ∨ ∃ err, optimize.construction_error err
              ∧ optimize.DeletePlanMetadata g b ctx handle = Some err).
Proof.
  intros Hdo.
  assert (∀ V (U : Unmarshaler V) req (v : option V),
            optimize.returned (optimize.Do b req v) = Some terr) as Hret.
  { intros V U req v. by eapply Do_transport_error. }
  unfold_method. unfold optimize.fails_with.
  split_and!; apply after_build; intros; rewrite ?Hret; eauto.
Qed.

(** X16. Against a server that answers with a status code from 200 to 399,
    every resource method with a result returns the value the body decodes
    to, when it decodes into the result type of the method, and [GetPlan]
    writes nothing, unless the request could not be made. *)
Theorem decoded_value_is_returned g b ctx res handle (version : Z) plan splan params :
  (∀ req, http_Client_Do (optimize.httpClient b) req = Ok res) →
  (200 ≤ http.StatusCode res < 400)%Z →
  (∀ l : ListOfPlansResponse,
     json_Decode (http.RespBody res) optimize.zero = (l, None) →
     optimize.gives l (optimize.GetListOfPlans (ListOfPlansResponse := ListOfPlansResponse) g b ctx params))
  ∧ (∀ p : Plan,
       json_Decode (http.RespBody res) optimize.zero = (p, None) →
       (optimize.GetPlan (Plan := Plan) g b ctx handle params = (Ok p, "")
        ∨ ∃ err, optimize.construction_error err
                 ∧ optimize.GetPlan (Plan := Plan) g b ctx handle params = (Err err, ""))
       ∧ optimize.gives p (optimize.CreatePlan (Plan := Plan) g b ctx plan)
       ∧ optimize.gives p (optimize.SupersedePlan (Plan := Plan) g b ctx handle splan)
       ∧ optimize.gives p (optimize.UpdatePlan (Plan := Plan) g b ctx handle plan)
       ∧ optimize.gives p (optimize.DeletePlan (Plan := Plan) g b ctx handle)
       ∧ optimize.gives p (optimize.UndeletePlan (Plan := Plan) g b ctx handle))
  ∧ (∀ ps : list (option Plan),
       json_Decode (http.RespBody res) [] = (ps, None) →
       optimize.gives ps (optimize.GetListOfPlanVersions (Plan := Plan) g b ctx handle params))
  ∧ (∀ es : list (option PlanEntitlement),
       json_Decode (http.RespBody res) [] = (es, None) →
       optimize.gives es (optimize.GetPlanEntitlements (PlanEntitlement := PlanEntitlement) g b ctx handle version)).
Proof.
  intros Hdo Hcode.
  assert (∀ V (U : Unmarshaler V) req (d d' : V),
            json_Decode (http.RespBody res) d = (d', None) →
            optimize.Do b req (Some d)
            = optimize.mkOutcome None (Some d') [http.BodyRead; http.BodyClose]) as Hret.
  { intros V U req d d' Hdec. by eapply Do_decoded. }
  unfold_method. unfold optimize.gives.
  split_and!; intros x Hx; split_and?;
    (destruct (request.build _) as [rb' [req|e0]] eqn:Hb;
     [|right; exists e0; split; [by eapply build_Err|done]]);
    rewrite (Hret _ _ _ _ _ Hx); by left.
Qed.

(** X17. [DeletePlanMetadata] passes no destination: for a status code
    from 200 to 399 it returns no error whatever the body holds, where
    [DeletePlan], which decodes the body of the same response into a plan,
    returns the wrapped error of the decoder when the body does not
    decode. *)
Theorem DeletePlanMetadata_ignores_body g b ctx res handle :
  (∀ req, http_Client_Do (optimize.httpClient b) req = Ok res) →
  (200 ≤ http.StatusCode res < 400)%Z →
  (optimize.DeletePlanMetadata g b ctx handle = None
   ∨ ∃ err, optimize.construction_error err
            ∧ optimize.DeletePlanMetadata g b ctx handle = Some err)
  ∧ (∀ (d' : Plan) cause,
       json_Decode (http.RespBody res) optimize.zero = (d', Some cause) →
       optimize.fails_with (Errorf_w "failed to decode response body: " cause)
         (optimize.DeletePlan (Plan := Plan) g b ctx handle)).
Proof.
  intros Hdo Hcode. split.
  - unfold_method. apply after_build; [|by eauto]. intros req. left.
    unfold optimize.Do. by rewrite Hdo, (status_check_false res Hcode).
  - intros d' cause Hdec. unfold_method. unfold optimize.fails_with.
    apply after_build; [|by eauto]. intros req. left.
    by rewrite (Do_decode_failed b req optimize.zero d' res cause).
Qed.

Lemma Encode_empty : url.Encode ∅ = "".
Proof. by vm_compute. Qed.

Lemma header_newBillwerkRequest g b ctx :
  request.header (optimize.newBillwerkRequest g b ctx)
  = <["Accept" := ["application/json; charset=utf-8"]]>
      (<["Authorization" :=
           ["Basic " +:+ base64.EncodeToString (optimize.apiKey b +:+ ":")]]> ∅).
Proof.
  destruct canonical_known as (Hauth & _ & _ & Hacc).
  unfold optimize.newBillwerkRequest, request.WithBasicAuth.
  rewrite !header_WithHeader. by rewrite Hacc, Hauth.
Qed.

(** X18. A plan that has no JSON encoding does not stop [CreatePlan] and
    [UpdatePlan]: the error of the encoder is dropped and the request goes
    out with an empty body, the method and target of the call, the JSON
    content type and the three standard headers; what the method returns is
    what [Do] makes of the answer to that request. *)
Theorem unencodable_plan_is_sent_empty g b ctx handle plan (e' : error) :
  json_Marshal plan = Err e' →
  let headers :=
    <["User-Agent" := [request.UserAgent]]>
      (<["Content-Type" := ["application/json; charset=utf-8"]]>
         (<["Accept" := ["application/json; charset=utf-8"]]>
            (<["Authorization" :=
                 ["Basic " +:+ base64.EncodeToString (optimize.apiKey b +:+ ":")]]> ∅))) in
  let sent req0 := http.with_RawQuery (http.with_Header req0 headers) "" in
  (∀ req0,
     http_NewRequestWithContext ctx "POST" (optimize.BaseURL g +:+ "/plan") (Some "")
     = Ok req0 →
     optimize.CreatePlan (Plan := Plan) g b ctx plan
     = optimize.answer (optimize.Do b (sent req0) (Some optimize.zero)) optimize.zero)
  ∧ (∀ req0,
       http_NewRequestWithContext ctx "PUT"
         (optimize.BaseURL g +:+ "/plan/" +:+ handle) (Some "")
       = Ok req0 →
       optimize.UpdatePlan (Plan := Plan) g b ctx handle plan
       = optimize.answer (optimize.Do b (sent req0) (Some optimize.zero)) optimize.zero)
  ∧ (∀ err,
       http_NewRequestWithContext ctx "POST" (optimize.BaseURL g +:+ "/plan") (Some "")
       = Err err →
       optimize.CreatePlan (Plan := Plan) g b ctx plan = Err err).
Proof.
  intros Hplan headers sent.
  destruct canonical_known as (_ & Hct & Hua & _).
  assert (∀ endpoint,
            request.WithJSONBody plan
              (request.WithEndpoint endpoint (optimize.newBillwerkRequest g b ctx))
            = request.mkrequest ctx "GET" (optimize.BaseURL g) endpoint
                (<["Content-Type" := ["application/json; charset=utf-8"]]>
                   (request.header (optimize.newBillwerkRequest g b ctx)))
                ∅ (Some "")) as Hrb.
  { intros endpoint. unfold request.WithJSONBody, json_Encode. rewrite Hplan.
    unfold request.WithContentTypeJSON, request.WithHeader, http.Header_Set. simpl.
    by rewrite Hct. }
  unfold optimize.CreatePlan, optimize.UpdatePlan, request.POST, request.PUT.
  rewrite !Hrb, header_newBillwerkRequest.
  unfold request.build, request.fullURL, optimize.answer. simpl.
  unfold http.Header_Set. rewrite Hua, Encode_empty.
  unfold http.MethodPost, http.MethodPut. split_and!.
  - by intros req0 ->.
  - by intros req0 ->.
  - by intros err ->.
Qed.

(** X19. [GetListOfPlans] sends a [GET] for the base URL followed by
    ["/list/plan"], without a body, with the three standard headers, and
    with the query string that encodes the parameters its parameter
    functions leave, applied in the order given, when these functions
    change the parameters of the builder only, as [WithQueryParam] and
    [WithQueryParams] do; what it returns is what [Do] makes of the answer
    to that request. *)
Theorem GetListOfPlans_request g b ctx params req0 :
  Forall (λ p, ∀ rb, p rb = request.set_params rb (request.params (p rb))) params →
  http_NewRequestWithContext ctx "GET" (optimize.BaseURL g +:+ "/list/plan") None = Ok req0 →
  let headers :=
    <["User-Agent" := [request.UserAgent]]>
      (<["Accept" := ["application/json; charset=utf-8"]]>
         (<["Authorization" :=
              ["Basic " +:+ base64.EncodeToString (optimize.apiKey b +:+ ":")]]> ∅)) in
  let query :=
    url.Encode
      (request.params
         (fold_left (λ rb param, param rb) params
            (request.WithEndpoint "/list/plan" (optimize.newBillwerkRequest g b ctx)))) in
  optimize.GetListOfPlans (ListOfPlansResponse := ListOfPlansResponse) g b ctx params
  = optimize.answer
      (optimize.Do b (http.with_RawQuery (http.with_Header req0 headers) query)
         (Some optimize.zero))
      optimize.zero.
Proof.
  intros Hparams Hnew headers query.
  destruct canonical_known as (_ & _ & Hua & _).
  set (rb0 := request.WithEndpoint "/list/plan" (optimize.newBillwerkRequest g b ctx)).
  assert (∀ rb, fold_left (λ rb param, param rb) params rb
                = request.set_params rb
                    (request.params (fold_left (λ rb param, param rb) params rb))) as Hfold.
  { induction Hparams as [|p ps Hp Hps IH]; intros rb; [by destruct rb|].
    simpl. rewrite IH at 1. rewrite Hp at 1. by destruct rb. }
  subst query. unfold optimize.GetListOfPlans, request.GET. fold rb0.
  rewrite (Hfold rb0).
  generalize (request.params (fold_left (λ rb param, param rb) params rb0)).
  intros v. subst rb0.
  change (request.WithEndpoint "/list/plan" (optimize.newBillwerkRequest g b ctx))
    with (request.mkrequest ctx "GET" (optimize.BaseURL g) "/list/plan"
            (request.header (optimize.newBillwerkRequest g b ctx)) ∅ None).
  rewrite header_newBillwerkRequest.
  unfold request.build, request.fullURL, optimize.answer. simpl.
  unfold http.MethodGet. rewrite Hnew. unfold http.Header_Set. by rewrite Hua.
Qed.

End plan_more.

(** ** The further statements at concrete inputs *)

(** A page size written three times. *)
Lemma WithParam_overwrites_witness :
  ∃ r' req pairs,
    request.build (env := sample.env0)
      (request.set_method
         (request.WithParam "size" "20"
            (request.AddParam "size" "5"
               (request.WithParam "size" "10"
                  (request.WithEndpoint "/list/plan"
                     (optimize.newBillwerkRequest optimize.init (optimize.New "key" [])
                        sample.ctx0)))))
         "GET")
    = (r', Ok req)
    ∧ url.query_pairs (url.RawQuery (http.URL req)) = Some pairs
    ∧ filter (λ p, p.1 = "size") pairs = [("size", "20")].
Proof.
  pose proof (WithParam_overwrites (env := sample.env0)
                (request.AddParam "size" "5"
                   (request.WithParam "size" "10"
                      (request.WithEndpoint "/list/plan"
                         (optimize.newBillwerkRequest optimize.init
                            (optimize.New "key" []) sample.ctx0))))
                "size" "20" "GET") as Hthm.
  destruct (request.build _) as [r' [req|err]] eqn:Hb.
  - destruct (Hthm r' req eq_refl) as (pairs & Hpairs & Hsize & _).
    by exists r', req, pairs.
  - by vm_compute in Hb.
Defined.

(** A content type written twice, in two spellings. *)
Lemma WithHeader_last_write_wins_witness :
  request.WithHeader "Content-Type" "text/plain"
    (request.WithHeader "content-type" "application/json" (request.New sample.ctx0))
  = request.WithHeader "Content-Type" "text/plain" (request.New sample.ctx0).
Proof.
  refine (proj1 (WithHeader_last_write_wins (request.New sample.ctx0)
                   "content-type" "application/json" "Content-Type" "text/plain" _ _));
    reflexivity.
Defined.

(** A plan with a JSON encoding. *)
Lemma WithJSONBody_encoded_witness :
  request.body
    (request.WithJSONBody (M := sample.marshal_Plan)
       (Some (sample.mkPlan "gold" "gold-plan" true)) (request.New sample.ctx0))
  = Some (("{" +:+ sample.quoted "name" +:+ ":" +:+ sample.quoted "gold" +:+ ","
           +:+ sample.quoted "handle" +:+ ":" +:+ sample.quoted "gold-plan" +:+ "}")
          +:+ String "010" EmptyString).
Proof.
  refine (proj1 (WithJSONBody_encoded (M := sample.marshal_Plan)
                   (Some (sample.mkPlan "gold" "gold-plan" true)) _
                   (request.New sample.ctx0) _)).
  reflexivity.
Defined.

(** A builder materialized twice. *)
Lemma build_repeatable_witness :
  ∃ r' res,
    request.build (env := sample.env0)
      (request.set_method
         (request.WithEndpoint "/plan"
            (optimize.newBillwerkRequest optimize.init (optimize.New "key" [])
               sample.ctx0))
         "DELETE")
    = (r', res)
    ∧ request.build (env := sample.env0) r' = (r', res).
Proof.
  eexists _, _. split; [reflexivity|].
  refine (proj1 (build_repeatable (env := sample.env0)
                   (request.WithEndpoint "/plan"
                      (optimize.newBillwerkRequest optimize.init (optimize.New "key" [])
                         sample.ctx0))
                   "DELETE" _ _ _)).
  reflexivity.
Defined.

(** A value full of separators. *)
Lemma query_string_is_escaped_witness :
  ∃ r' req,
    request.build (env := sample.env0)
      (request.set_method
         (request.AddParam "name" "a b&c=d#e?f"
            (request.WithEndpoint "/list/plan"
               (optimize.newBillwerkRequest optimize.init (optimize.New "key" [])
                  sample.ctx0)))
         "GET")
    = (r', Ok req)
    ∧ string_forallb url.query_byte (url.RawQuery (http.URL req)) = true.
Proof.
  pose proof (query_string_is_escaped (env := sample.env0)
                (request.AddParam "name" "a b&c=d#e?f"
                   (request.WithEndpoint "/list/plan"
                      (optimize.newBillwerkRequest optimize.init (optimize.New "key" [])
                         sample.ctx0)))
                "GET") as Hthm.
  destruct (request.build _) as [r' [req|err]] eqn:Hb.
  - destruct (Hthm r' req eq_refl) as (Hq & _). by exists r', req.
  - by vm_compute in Hb.
Defined.

(** Two parameters given in either order. *)
Lemma query_determines_params_witness :
  request.params
    (request.chain [request.CallAddParam "from" "2024"; request.CallAddParam "size" "10"]
       (request.New sample.ctx0))
  = request.params
      (request.chain [request.CallAddParam "size" "10"; request.CallAddParam "from" "2024"]
         (request.New sample.ctx0)).
Proof.
  pose proof (query_determines_params (env := sample.env0) sample.ctx0
                [request.CallAddParam "from" "2024"; request.CallAddParam "size" "10"]
                sample.ctx0
                [request.CallAddParam "size" "10"; request.CallAddParam "from" "2024"]
                "GET" "GET") as Hthm.
  destruct (request.build (request.set_method (request.chain
              [request.CallAddParam "from" "2024"; request.CallAddParam "size" "10"]
              (request.New sample.ctx0)) "GET")) as [r1 [req1|err1]] eqn:Hb1;
    [|by vm_compute in Hb1].
  destruct (request.build (request.set_method (request.chain
              [request.CallAddParam "size" "10"; request.CallAddParam "from" "2024"]
              (request.New sample.ctx0)) "GET")) as [r2 [req2|err2]] eqn:Hb2;
    [|by vm_compute in Hb2].
  apply (Hthm r1 r2 req1 req2 eq_refl eq_refl).
  vm_compute in Hb1, Hb2. by simplify_eq.
Defined.

(** The headers of a list request. *)
Lemma request_headers_witness :
  ∃ r' req,
    request.build (env := sample.env0)
      (request.set_method
         (request.chain
            [request.CallWithEndpoint "/list/plan"; request.CallAddParam "size" "10"]
            (optimize.newBillwerkRequest optimize.init (optimize.New "key" []) sample.ctx0))
         "GET")
    = (r', Ok req)
    ∧ dom (http.Header_ req) = ({["User-Agent"; "Accept"; "Authorization"]} : gset string).
Proof.
  pose proof (request_headers (env := sample.env0) optimize.init (optimize.New "key" [])
                sample.ctx0
                [request.CallWithEndpoint "/list/plan"; request.CallAddParam "size" "10"]
                "GET") as Hthm.
  destruct (request.build _) as [r' [req|err]] eqn:Hb.
  - destruct (Hthm r' req) as (_ & Hdom); [by repeat constructor|done|].
    by exists r', req.
  - by vm_compute in Hb.
Defined.

(** Every method with a nil context. *)
Lemma construction_failure_is_returned_witness :
  optimize.GetPlan (env := sample.env0) (UE := sample.unmarshal_ErrorResponse)
    (ZP := sample.zero_Plan) (UP := sample.unmarshal_Plan)
    optimize.init (sample.client 200 sample.body_gold) None "gold-plan" []
  = (Err (errorString "net/http: nil Context"), "").
Proof.
  refine (proj1 (proj2 (construction_failure_is_returned (env := sample.env0)
            (UE := sample.unmarshal_ErrorResponse)
            (PlanSupersede := sample.Plan)
            (ZP := sample.zero_Plan) (UP := sample.unmarshal_Plan)
            (ZL := sample.zero_Named) (UL := sample.unmarshal_Named)
            (UPs := sample.unmarshal_list (option sample.Plan))
            (UEs := sample.unmarshal_list (option sample.Named))
            (MP := sample.marshal_Plan) (MS := sample.marshal_Plan)
            optimize.init (sample.client 200 sample.body_gold) None
            (errorString "net/http: nil Context") "gold-plan" 1 None None [] _ _))).
  - intros method target body Hm.
    repeat (apply elem_of_cons in Hm as [->|Hm]; [reflexivity|]).
    by apply not_elem_of_nil in Hm.
  - constructor.
Defined.

(** A 404 with a structured body, seen through [GetPlan]. *)
Lemma api_error_is_returned_witness :
  optimize.GetPlan (env := sample.env0) (UE := sample.unmarshal_ErrorResponse)
    (ZP := sample.zero_Plan) (UP := sample.unmarshal_Plan)
    optimize.init (sample.client 404 sample.body_422) sample.ctx0 "gold-plan" []
  = (Err (apiError (mkErrorResponse 105 "invalid_handle" "Handle already exists"
                      "" 0 "" "" "" "")),
     "invalid_handle: Handle already exists" +:+ String "010" EmptyString).
Proof.
  destruct (api_error_is_returned (env := sample.env0)
              (UE := sample.unmarshal_ErrorResponse)
              (PlanSupersede := sample.Plan)
              (ZP := sample.zero_Plan) (UP := sample.unmarshal_Plan)
              (ZL := sample.zero_Named) (UL := sample.unmarshal_Named)
              (UPs := sample.unmarshal_list (option sample.Plan))
              (UEs := sample.unmarshal_list (option sample.Named))
              (MP := sample.marshal_Plan) (MS := sample.marshal_Plan)
              optimize.init (sample.client 404 sample.body_422) sample.ctx0
              (http.mkResponse "" 404 ∅ sample.body_422)
              (mkErrorResponse 105 "invalid_handle" "Handle already exists" "" 0 "" "" "" "")
              "gold-plan" 1 None None [])
    as (_ & [Hget|(err & _ & Hget)] & _).
  - by intros req.
  - right. by vm_compute.
  - by vm_compute.
  - exact Hget.
  - by vm_compute in Hget.
Defined.

(** A client without a transport, seen through [DeletePlan]. *)
Lemma transport_error_is_returned_witness :
  optimize.DeletePlan (env := sample.env0) (UE := sample.unmarshal_ErrorResponse)
    (ZP := sample.zero_Plan) (UP := sample.unmarshal_Plan)
    optimize.init (optimize.New "key" []) sample.ctx0 "gold-plan"
  = Err (errorString "dial tcp: network is unreachable").
Proof.
  destruct (transport_error_is_returned (env := sample.env0)
              (UE := sample.unmarshal_ErrorResponse)
              (PlanSupersede := sample.Plan)
              (ZP := sample.zero_Plan) (UP := sample.unmarshal_Plan)
              (ZL := sample.zero_Named) (UL := sample.unmarshal_Named)
              (UPs := sample.unmarshal_list (option sample.Plan))
              (UEs := sample.unmarshal_list (option sample.Named))
              (MP := sample.marshal_Plan) (MS := sample.marshal_Plan)
              optimize.init (optimize.New "key" []) sample.ctx0
              (errorString "dial tcp: network is unreachable")
              "gold-plan" 1 None None [])
    as (_ & _ & _ & _ & _ & _ & [Hdel|(err & _ & Hdel)] & _).
  - by intros req.
  - exact Hdel.
  - by vm_compute in Hdel.
Defined.

(** A plan read with [GetPlan]. *)
Lemma decoded_value_is_returned_witness :
  optimize.GetPlan (env := sample.env0) (UE := sample.unmarshal_ErrorResponse)
    (ZP := sample.zero_Plan) (UP := sample.unmarshal_Plan)
    optimize.init (sample.client 200 sample.body_gold) sample.ctx0 "gold-plan" []
  = (Ok (sample.mkPlan "gold" "gold-plan" true), "").
Proof.
  destruct (decoded_value_is_returned (env := sample.env0)
              (UE := sample.unmarshal_ErrorResponse)
              (PlanSupersede := sample.Plan)
              (ZP := sample.zero_Plan) (UP := sample.unmarshal_Plan)
              (ZL := sample.zero_Named) (UL := sample.unmarshal_Named)
              (UPs := sample.unmarshal_list (option sample.Plan))
              (UEs := sample.unmarshal_list (option sample.Named))
              (MP := sample.marshal_Plan) (MS := sample.marshal_Plan)
              optimize.init (sample.client 200 sample.body_gold) sample.ctx0
              (http.mkResponse "" 200 ∅ sample.body_gold)
              "gold-plan" 1 None None [])
    as (_ & Hplan & _).
  - by intros req.
  - by vm_compute.
  - destruct (Hplan (sample.mkPlan "gold" "gold-plan" true)) as ([Hget|(err & _ & Hget)] & _).
    + by vm_compute.
    + exact Hget.
    + by vm_compute in Hget.
Defined.

(** A 204-like answer whose body is no JSON. *)
Lemma DeletePlanMetadata_ignores_body_witness :
  optimize.DeletePlanMetadata (env := sample.env0) (UE := sample.unmarshal_ErrorResponse)
    optimize.init (sample.client 200 "<html>deleted</html>") sample.ctx0 "gold-plan"
  = None.
Proof.
  destruct (DeletePlanMetadata_ignores_body (env := sample.env0)
              (UE := sample.unmarshal_ErrorResponse)
              (ZP := sample.zero_Plan) (UP := sample.unmarshal_Plan)
              optimize.init (sample.client 200 "<html>deleted</html>") sample.ctx0
              (http.mkResponse "" 200 ∅ "<html>deleted</html>") "gold-plan")
    as ([Hdel|(err & _ & Hdel)] & _).
  - by intros req.
  - by vm_compute.
  - exact Hdel.
  - by vm_compute in Hdel.
Defined.

(** A plan whose VAT rate is no number, created against a server that
    answers with a plan. *)
Lemma unencodable_plan_is_sent_empty_witness :
  optimize.CreatePlan (env := sample.env0) (UE := sample.unmarshal_ErrorResponse)
    (ZP := sample.zero_Plan) (UP := sample.unmarshal_Plan) (MP := sample.marshal_Plan)
    optimize.init (sample.client 200 sample.body_gold) sample.ctx0
    (Some (sample.mkPlan "gold" "gold-plan" false))
  = Ok (sample.mkPlan "gold" "gold-plan" true).
Proof.
  destruct (unencodable_plan_is_sent_empty (env := sample.env0)
              (UE := sample.unmarshal_ErrorResponse)
              (ZP := sample.zero_Plan) (UP := sample.unmarshal_Plan)
              (MP := sample.marshal_Plan)
              optimize.init (sample.client 200 sample.body_gold) sample.ctx0 "gold-plan"
              (Some (sample.mkPlan "gold" "gold-plan" false))
              (errorString "json: unsupported value: NaN") eq_refl)
    as (Hcreate & _).
  destruct (http_NewRequestWithContext (Environment := sample.env0) sample.ctx0 "POST"
              (optimize.BaseURL optimize.init +:+ "/plan") (Some "")) as [req0|err] eqn:Hnew;
    [|by vm_compute in Hnew].
  rewrite (Hcreate req0 eq_refl). vm_compute in Hnew. injection Hnew as <-.
  by vm_compute.
Defined.

(** A list request with a page size and two states. *)
Lemma GetListOfPlans_request_witness :
  ∃ req0,
    http_NewRequestWithContext (Environment := sample.env0) sample.ctx0 "GET"
      (optimize.BaseURL optimize.init +:+ "/list/plan") None = Ok req0
    ∧ optimize.GetListOfPlans (env := sample.env0) (UE := sample.unmarshal_ErrorResponse)
        (ZL := sample.zero_Named) (UL := sample.unmarshal_Named)
        optimize.init (sample.client 200 sample.body_gold) sample.ctx0
        [optimize.WithQueryParam (F := sample.format_string) "size" "10";
         optimize.WithQueryParams (F := sample.format_string) "state" ["active"; "deleted"]]
      = optimize.answer
          (optimize.Do (env := sample.env0) (UE := sample.unmarshal_ErrorResponse)
             (U := sample.unmarshal_Named) (sample.client 200 sample.body_gold)
             (http.with_RawQuery
                (http.with_Header req0
                   (<["User-Agent" := ["go-billwerk/0.1.0"]]>
                      (<["Accept" := ["application/json; charset=utf-8"]]>
                         (<["Authorization" := ["Basic a2V5Og=="]]> ∅))))
                "size=10&state=active&state=deleted")
             (Some (sample.mkNamed "" "")))
          (sample.mkNamed "" "").
Proof.
  destruct (http_NewRequestWithContext (Environment := sample.env0) sample.ctx0 "GET"
              (optimize.BaseURL optimize.init +:+ "/list/plan") None) as [req0|err] eqn:Hnew;
    [|by vm_compute in Hnew].
  exists req0. split; [done|].
  rewrite (GetListOfPlans_request (env := sample.env0)
             (UE := sample.unmarshal_ErrorResponse)
             (ZL := sample.zero_Named) (UL := sample.unmarshal_Named)
             optimize.init (sample.client 200 sample.body_gold) sample.ctx0
             [optimize.WithQueryParam (F := sample.format_string) "size" "10";
              optimize.WithQueryParams (F := sample.format_string) "state"
                ["active"; "deleted"]]
             req0).
  - reflexivity.
  - repeat constructor; by intros [].
  - exact Hnew.
Defined.
